(** * all2webp_webm: a shallow embedding of the batch converter

    The script walks a directory tree, classifies every file by its
    extension, probes audio streams with ffprobe and builds one ffmpeg
    command line per file.  This development embeds the script function by
    function and proves the properties its specification states about
    classification, probing, command construction and error handling.

    Modelling conventions.
    - A Python [str] is a [string]; each character stands for one code point
      in the range U+0000..U+00FF.  The tables of [str.isspace],
      [str.isdigit] and [str.lower] below are the ones of CPython on that
      range.
    - [int] is unbounded, so a bit rate is an [N]; [int(s)] keeps the
      default limit of CPython 3.11 on the length of [s], 4300 digits.
    - The operating system is an explicit state: running a process and
      listing or testing files read and change that state.
    - Exceptions are values.  Only exceptions derived from [Exception] are
      modelled; asynchronous interrupts are outside the model.  The
      exceptions of the script's own calls are: those of [subprocess.run]
      ([CalledProcessError], [FileNotFoundError], another [OSError] of
      starting the process, and with [text=True] the [UnicodeDecodeError]
      of output that cannot be decoded), the [ValueError] of [int] and of
      [with_suffix], and the [OSError] that [Path.exists()] passes on.
    - [print], [Path.resolve], [Path.is_dir] and [os.walk] return: the
      console takes every line, and the root can be examined and listed.
    - A run starts where [parser.parse_args()] has returned the namespace
      [args]; a command line that [argparse] rejects, or [--help], ends
      the process before the first line of the script proper. *)

From Stdlib Require Import NArith ZArith List String Ascii Bool Lia.
From Stdlib Require Import DecimalString.
Import ListNotations.

Local Open Scope string_scope.

(* ------------------------------------------------------------------ *)
(** ** Python string primitives *)
(* ------------------------------------------------------------------ *)

Module PyStr.

(** [c.isspace()] on U+0000..U+00FF: TAB..CR, FS..US, space, NEL, NBSP. *)
Definition isspace (c : ascii) : bool :=
  let n := N_of_ascii c in
  ((9 <=? n) && (n <=? 13) || (28 <=? n) && (n <=? 32)
   || (n =? 133) || (n =? 160))%N.

(** The characters [int()] accepts as digits: '0'..'9'. *)
Definition isdecimal (c : ascii) : bool :=
  let n := N_of_ascii c in ((48 <=? n) && (n <=? 57))%N.

(** [c.isdigit()] on U+0000..U+00FF: '0'..'9' and the superscripts
    U+00B2, U+00B3, U+00B9. *)
Definition isdigit_char (c : ascii) : bool :=
  let n := N_of_ascii c in
  (isdecimal c || (n =? 178) || (n =? 179) || (n =? 185))%N.

(** [c.lower()] on U+0000..U+00FF: A..Z and the Latin-1 capitals
    U+00C0..U+00DE (the multiplication sign U+00D7 apart) move by 32. *)
Definition lower_char (c : ascii) : ascii :=
  let n := N_of_ascii c in
  if ((65 <=? n) && (n <=? 90)
      || (192 <=? n) && (n <=? 222) && negb (n =? 215))%N
  then ascii_of_N (n + 32) else c.

Fixpoint forallb (p : ascii -> bool) (s : string) : bool :=
  match s with
  | EmptyString => true
  | String c r => p c && forallb p r
  end.

Fixpoint lower (s : string) : string :=
  match s with
  | EmptyString => EmptyString
  | String c r => String (lower_char c) (lower r)
  end.

Fixpoint lstrip (s : string) : string :=
  match s with
  | EmptyString => EmptyString
  | String c r => if isspace c then lstrip r else s
  end.

Fixpoint rstrip (s : string) : string :=
  match s with
  | EmptyString => EmptyString
  | String c r =>
      match rstrip r with
      | EmptyString => if isspace c then EmptyString else String c EmptyString
      | r' => String c r'
      end
  end.

(** [s.strip()] *)
Definition strip (s : string) : string := rstrip (lstrip s).

(** [bool(s)] *)
Definition truthy (s : string) : bool :=
  match s with EmptyString => false | _ => true end.

(** [s.isdigit()]: at least one character, all of them digits. *)
Definition isdigit (s : string) : bool := truthy s && forallb isdigit_char s.

(** The value of a run of '0'..'9', most significant digit first. *)
Fixpoint digits_value (acc : N) (s : string) : N :=
  match s with
  | EmptyString => acc
  | String c r => digits_value (10 * acc + (N_of_ascii c - 48)) r
  end.

(** [sys.get_int_max_str_digits()], the default of CPython 3.11. *)
Definition int_max_str_digits : nat := 4300.

(** [int(s)] for a string [s] that passed [s.isdigit()]: the value when
    every character is one of '0'..'9' and there are at most
    [int_max_str_digits] of them; [ValueError] ([None]) when a superscript
    digit occurs or when the string is longer than the limit. *)
Definition int (s : string) : option N :=
  if truthy s && forallb isdecimal s then
    if (String.length s <=? int_max_str_digits)%nat
    then Some (digits_value 0 s)
    else None
  else None.

(** [str(n)] for a non-negative integer. *)
Definition of_N (n : N) : string := NilEmpty.string_of_uint (N.to_uint n).

(** [c in s] for a one-character [c]. *)
Fixpoint contains (c : ascii) (s : string) : bool :=
  match s with
  | EmptyString => false
  | String a r => Ascii.eqb a c || contains c r
  end.

(** [s.rfind(c)], with [None] for -1. *)
Fixpoint rfind (c : ascii) (s : string) : option nat :=
  match s with
  | EmptyString => None
  | String a r =>
      match rfind c r with
      | Some i => Some (S i)
      | None => if Ascii.eqb a c then Some 0 else None
      end
  end.

(** [x in xs] for a set of strings written as a list. *)
Definition mem (x : string) (xs : list string) : bool :=
  existsb (String.eqb x) xs.

End PyStr.

(* ------------------------------------------------------------------ *)
(** ** pathlib *)
(* ------------------------------------------------------------------ *)

(** A path as the script builds it, [Path(dirpath) / filename]: the
    directory that [os.walk] reported and the file name inside it. *)
Record Path : Type := mkPath { parent : string; name : string }.

(** [str(p)] *)
Definition path_str (p : Path) : string :=
  if String.eqb (parent p) "/" then "/" ++ name p
  else parent p ++ "/" ++ name p.

(** [PurePath.suffix]: the part of the name from its last dot on, when that
    dot is neither the first nor the last character. *)
Definition suffix_of (nm : string) : string :=
  match PyStr.rfind "." nm with
  | Some i =>
      if (0 <? i)%nat && (i <? String.length nm - 1)%nat
      then substring i (String.length nm - i) nm
      else ""
  | None => ""
  end.

Definition suffix (p : Path) : string := suffix_of (name p).

(** [PurePath.stem]: the name without its suffix. *)
Definition stem (p : Path) : string :=
  substring 0 (String.length (name p) - String.length (suffix p)) (name p).

(** [PurePath.with_suffix(suf)]; [None] stands for its [ValueError]. *)
Definition with_suffix (p : Path) (suf : string) : option Path :=
  if PyStr.contains "/" suf then None
  else if (PyStr.truthy suf && negb (prefix "." suf)) || String.eqb suf "."
  then None
  else if negb (PyStr.truthy (name p)) then None
  else
    let old_suffix := suffix p in
    if negb (PyStr.truthy old_suffix)
    then Some (mkPath (parent p) (name p ++ suf))
    else Some (mkPath (parent p)
                 (substring 0 (String.length (name p) - String.length old_suffix)
                    (name p) ++ suf)).

(* ------------------------------------------------------------------ *)
(** ** The extension tables *)
(* ------------------------------------------------------------------ *)

Definition IMAGE_EXTS : list string :=
  [".jpg"; ".jpeg"; ".png"; ".gif"; ".bmp"; ".tiff"; ".tif"; ".webp"; ".apng"].
Definition VIDEO_EXTS : list string :=
  [".mp4"; ".avi"; ".mov"; ".mkv"; ".flv"; ".wmv"; ".m4v"; ".mpg"; ".mpeg"].
Definition AUDIO_EXTS : list string :=
  [".mp3"; ".flac"; ".wav"; ".aac"; ".ogg"; ".m4a"; ".wma"; ".opus"].

(* ------------------------------------------------------------------ *)
(** ** Processes, exceptions, console and file system *)
(* ------------------------------------------------------------------ *)

(** What starting a child process can do, as [subprocess.run] sees it. *)
Inductive proc_outcome : Type :=
| Exited (returncode : Z) (stdout stderr : string)
    (** the process ran and ended with this status *)
| NotFound
    (** the executable is not on the search path *)
| Failed
    (** the process cannot be started for another reason (permission
        denied, ...): [subprocess.run] raises another [OSError] *)
| Undecodable (returncode : Z).
    (** the process ran and ended with this status, and what it wrote is
        not valid text: with [text=True], [subprocess.run] raises
        [UnicodeDecodeError], whatever the status *)

Inductive py_exception : Type :=
| CalledProcessError (returncode : Z) (stderr : string)
| FileNotFoundError
| ValueError
| OtherError                 (** another [OSError] of starting a process *)
| UnicodeDecodeError
| StatError.                 (** the [OSError] that [Path.exists()] passes on *)

(** The three values of [file_type] that [main] passes. *)
Inductive file_type : Type := Image | Video | Audio.

(** The lines the script prints, one constructor per [print] call, with the
    values interpolated into the text as arguments. *)
Inductive message : Type :=
| MsgToolMissing
    (** "Ошибка: FFmpeg (или ffprobe) не найден. ..." *)
| MsgNotADirectory (root : string)
    (** "Ошибка: {root_dir} не является папкой." *)
| MsgSkipExists (output_path : Path)
    (** "Пропуск (уже существует): {output_path}" *)
| MsgConverting (input_path output_path : Path)
    (** "Конвертация: {input_path} -> {output_path}" *)
| MsgConvertError (input_path : Path) (stderr : string)
    (** "Ошибка при конвертации {input_path}: {e.stderr}" *)
| MsgBitrateDefault (ft : file_type) (audio_bitrate : string)
    (** "  Не удалось определить битрейт..., используется {audio_bitrate}" *)
| MsgBitrateFound (ft : file_type) (audio_bitrate : string)
    (** "  Определён битрейт...: {audio_bitrate}" *)
| MsgVideoWithoutAudio
    (** "  Аудиопоток отсутствует, видео будет без звука" *)
| MsgWarnNoAudioStream (input_path : Path).
    (** "Предупреждение: в файле {input_path} нет аудиопотока, пропускаем." *)

(** What a run does that the outside can see, in the order it happens. *)
Inductive event : Type :=
| EvRun (cmd : list string)       (** [subprocess.run(cmd, ...)] *)
| EvPrint (m : message)           (** [print(...)] *)
| EvWalk (root : string).         (** [os.walk(root)] starts *)

(** The operating system as the script uses it, over a state [W]. *)
Record OS (W : Type) : Type := mkOS {
  spawn : list string -> W -> proc_outcome * W;
  (** [os.stat] of the path succeeds: [Path.exists()] answers [True] *)
  path_exists : Path -> W -> bool;
  (** [os.stat] of the path fails with an error that [Path.exists()] does
      not turn into [False] (permission denied, name too long, ...) *)
  exists_raises : Path -> W -> bool;
  resolve : string -> W -> string;
  is_dir : string -> W -> bool;
  (** the pairs [(dirpath, filenames)] that [os.walk] yields *)
  os_walk : string -> W -> list (string * list string)
}.
Arguments spawn {W} _ _ _.
Arguments path_exists {W} _ _ _.
Arguments exists_raises {W} _ _ _.
Arguments resolve {W} _ _ _.
Arguments is_dir {W} _ _ _.
Arguments os_walk {W} _ _ _.

(** How a computation ends: with a value, with an exception on its way up,
    or with [sys.exit(code)]. *)
Inductive result (A : Type) : Type :=
| Ret (a : A)
| Raise (e : py_exception)
| SysExit (code : Z).
Arguments Ret {A} a.
Arguments Raise {A} e.
Arguments SysExit {A} code.

(** A computation reads and changes the system state and emits events. *)
Definition M (W A : Type) : Type := W -> result A * W * list event.

Definition ret {W A} (a : A) : M W A := fun w => (Ret a, w, []).

Definition bind {W A B} (m : M W A) (k : A -> M W B) : M W B :=
  fun w =>
    match m w with
    | (Ret a, w1, t1) => let '(r, w2, t2) := k a w1 in (r, w2, (t1 ++ t2)%list)
    | (Raise e, w1, t1) => (Raise e, w1, t1)
    | (SysExit c, w1, t1) => (SysExit c, w1, t1)
    end.

Declare Scope py_scope.
Delimit Scope py_scope with py.
Notation "x <- m ;; k" := (bind m (fun x => k))
  (at level 61, m at next level, right associativity) : py_scope.
Notation "m ;; k" := (bind m (fun _ => k))
  (at level 61, right associativity) : py_scope.
Local Open Scope py_scope.

Definition raise {W A} (e : py_exception) : M W A := fun w => (Raise e, w, []).
Definition sys_exit {W A} (code : Z) : M W A := fun w => (SysExit code, w, []).
Definition print {W} (m : message) : M W unit :=
  fun w => (Ret tt, w, [EvPrint m]).

(** [try: m  except ...: h e]; the handler says which exceptions it takes. *)
Definition try_except {W A} (m : M W A) (h : py_exception -> option (M W A))
  : M W A :=
  fun w =>
    match m w with
    | (Raise e, w1, t1) =>
        match h e with
        | Some k => let '(r, w2, t2) := k w1 in (r, w2, (t1 ++ t2)%list)
        | None => (Raise e, w1, t1)
        end
    | other => other
    end.

(** [for x in xs: body x] *)
Fixpoint for_each {W A} (body : A -> M W unit) (xs : list A) : M W unit :=
  match xs with
  | [] => ret tt
  | x :: rest => body x ;; for_each body rest
  end.

(** The exit status of the interpreter: 0 after a normal end, the code of
    [sys.exit], 1 after an exception nobody caught. *)
Definition exit_status {A} (r : result A) : Z :=
  match r with
  | Ret _ => 0
  | SysExit c => c
  | Raise _ => 1
  end.

Definition trace_of {W A} (x : result A * W * list event) : list event := snd x.
Definition result_of {W A} (x : result A * W * list event) : result A :=
  fst (fst x).
Definition world_of {W A} (x : result A * W * list event) : W := snd (fst x).

(* ------------------------------------------------------------------ *)
(** ** The script *)
(* ------------------------------------------------------------------ *)

(** The parsed command line: [input_dir], [--force], [--default-bitrate]. *)
Record Args : Type := mkArgs {
  input_dir : string;
  force : bool;
  default_bitrate : string
}.

Section Script.

Context {W : Type} (os : OS W).

(** [subprocess.run(cmd, capture_output=True, text=True, check=True)]: the
    captured [(stdout, stderr)] of a process that ended with status 0. *)
Definition subprocess_run (cmd : list string) : M W (string * string) :=
  fun w =>
    let '(o, w') := spawn os cmd w in
    (match o with
     | Exited 0 out err => Ret (out, err)
     | Exited rc _ err => Raise (CalledProcessError rc err)
     | NotFound => Raise FileNotFoundError
     | Failed => Raise OtherError
     | Undecodable _ => Raise UnicodeDecodeError
     end, w', [EvRun cmd]).

(** [subprocess.run(cmd, capture_output=True, check=True)], without
    [text=True]: the output stays bytes, nothing is decoded, and only the
    status counts.  The bytes themselves are not modelled; [check_ffmpeg]
    does not look at them. *)
Definition subprocess_run_bytes (cmd : list string) : M W unit :=
  fun w =>
    let '(o, w') := spawn os cmd w in
    (match o with
     | Exited 0 _ _ | Undecodable 0 => Ret tt
     | Exited rc _ err => Raise (CalledProcessError rc err)
     | Undecodable rc => Raise (CalledProcessError rc "")
     | NotFound => Raise FileNotFoundError
     | Failed => Raise OtherError
     end, w', [EvRun cmd]).

(** [output_path.exists()]: [True] when the path can be stat'ed; when it
    cannot, [False], or the [OSError] itself for the errors that
    [Path.exists()] does not swallow. *)
Definition exists_ (p : Path) : M W bool :=
  fun w =>
    if path_exists os p w then (Ret true, w, [])
    else if exists_raises os p w then (Raise StatError, w, [])
    else (Ret false, w, []).

(** [int(s)] *)
Definition int_ (s : string) : M W N :=
  match PyStr.int s with
  | Some n => ret n
  | None => raise ValueError
  end.

(** [path.with_suffix(suf)] *)
Definition with_suffix_ (p : Path) (suf : string) : M W Path :=
  match with_suffix p suf with
  | Some q => ret q
  | None => raise ValueError
  end.

Definition check_ffmpeg : M W unit :=
  try_except
    (subprocess_run_bytes ["ffmpeg"; "-version"] ;;
     subprocess_run_bytes ["ffprobe"; "-version"] ;;
     ret tt)
    (fun e =>
       match e with
       | CalledProcessError _ _ | FileNotFoundError =>
           Some (print MsgToolMissing ;; sys_exit 1)
       | _ => None
       end).

Definition has_audio_stream (file_path : Path) : M W bool :=
  try_except
    (let cmd :=
       ["ffprobe"; "-v"; "error";
        "-select_streams"; "a";
        "-show_entries"; "stream=index";
        "-of"; "default=noprint_wrappers=1:nokey=1";
        path_str file_path] in
     result <- subprocess_run cmd ;;
     ret (PyStr.truthy (PyStr.strip (fst result))))
    (fun _ => Some (ret false)).

Definition get_audio_bitrate (file_path : Path) : M W (option string) :=
  try_except
    (let cmd :=
       ["ffprobe"; "-v"; "error";
        "-select_streams"; "a:0";
        "-show_entries"; "stream=bit_rate";
        "-of"; "default=noprint_wrappers=1:nokey=1";
        path_str file_path] in
     result <- subprocess_run cmd ;;
     let bitrate_str := PyStr.strip (fst result) in
     if PyStr.truthy bitrate_str && PyStr.isdigit bitrate_str then
       bitrate_bps <- int_ bitrate_str ;;
       if (bitrate_bps =? 0)%N then ret None
       else
         let kbps := (bitrate_bps / 1000)%N in
         let kbps :=
           if (kbps <? 8)%N then 8%N
           else if (510 <? kbps)%N then 510%N
           else kbps in
         ret (Some (PyStr.of_N kbps ++ "k"))
     else ret None)
    (fun _ => Some (ret None)).

Definition convert_file (input_path output_path : Path) (ft : file_type)
    (force : bool) (default_bitrate : string) : M W unit :=
  ex <- exists_ output_path ;;
  if ex && negb force then
    print (MsgSkipExists output_path)
  else
    match ft with
    | Image =>
        let cmd :=
          ["ffmpeg"; "-i"; path_str input_path;
           "-c:v"; "libwebp";
           "-lossless"; "1";
           "-compression_level"; "6";
           "-loop"; "0";
           "-an";
           "-y"; path_str output_path] in
        print (MsgConverting input_path output_path) ;;
        try_except
          (subprocess_run cmd ;; ret tt)
          (fun e =>
             match e with
             | CalledProcessError _ stderr =>
                 Some (print (MsgConvertError input_path stderr))
             | _ => None
             end)
    | Video =>
        has_audio <- has_audio_stream input_path ;;
        cmd <- (if has_audio then
                  audio_bitrate <- get_audio_bitrate input_path ;;
                  audio_bitrate <-
                    match audio_bitrate with
                    | None =>
                        print (MsgBitrateDefault Video default_bitrate) ;;
                        ret default_bitrate
                    | Some b =>
                        print (MsgBitrateFound Video b) ;;
                        ret b
                    end ;;
                  ret ["ffmpeg"; "-i"; path_str input_path;
                       "-c:v"; "libvpx-vp9";
                       "-lossless"; "1";
                       "-b:v"; "0";
                       "-pix_fmt"; "yuva420p";
                       "-c:a"; "libopus";
                       "-b:a"; audio_bitrate;
                       "-y"; path_str output_path]
                else
                  print MsgVideoWithoutAudio ;;
                  ret ["ffmpeg"; "-i"; path_str input_path;
                       "-c:v"; "libvpx-vp9";
                       "-lossless"; "1";
                       "-b:v"; "0";
                       "-pix_fmt"; "yuva420p";
                       "-an";
                       "-y"; path_str output_path]) ;;
        print (MsgConverting input_path output_path) ;;
        try_except
          (subprocess_run cmd ;; ret tt)
          (fun e =>
             match e with
             | CalledProcessError _ stderr =>
                 Some (print (MsgConvertError input_path stderr))
             | _ => None
             end)
    | Audio =>
        has_audio <- has_audio_stream input_path ;;
        if negb has_audio then
          print (MsgWarnNoAudioStream input_path)
        else
          audio_bitrate <- get_audio_bitrate input_path ;;
          audio_bitrate <-
            match audio_bitrate with
            | None =>
                print (MsgBitrateDefault Audio default_bitrate) ;;
                ret default_bitrate
            | Some b =>
                print (MsgBitrateFound Audio b) ;;
                ret b
            end ;;
          let cmd :=
            ["ffmpeg"; "-i"; path_str input_path;
             "-c:a"; "libopus";
             "-b:a"; audio_bitrate;
             "-y"; path_str output_path] in
          print (MsgConverting input_path output_path) ;;
          try_except
            (subprocess_run cmd ;; ret tt)
            (fun e =>
               match e with
               | CalledProcessError _ stderr =>
                   Some (print (MsgConvertError input_path stderr))
               | _ => None
               end)
    end.

(** [os.walk(root)] *)
Definition walk (root : string) : M W (list (string * list string)) :=
  fun w => (Ret (os_walk os root w), w, [EvWalk root]).

(** [main()] from [check_ffmpeg()] on, with [args] the namespace that
    [parser.parse_args()] returned.  What [argparse] does with a command
    line it rejects, or with [--help], happens before and is not part of
    this function. *)
Definition main (args : Args) : M W unit :=
  check_ffmpeg ;;
  root_dir <- (fun w => (Ret (resolve os (input_dir args) w), w, [])) ;;
  isd <- (fun w => (Ret (is_dir os root_dir w), w, [])) ;;
  if negb isd then
    print (MsgNotADirectory root_dir) ;;
    sys_exit 1
  else
    entries <- walk root_dir ;;
    for_each
      (fun entry =>
         let dirpath := fst entry in
         let filenames := snd entry in
         for_each
           (fun filename =>
              let input_path := mkPath dirpath filename in
              let ext := PyStr.lower (suffix input_path) in
              if PyStr.mem ext IMAGE_EXTS then
                out_path <- with_suffix_ input_path ".webp" ;;
                convert_file input_path out_path Image
                  (force args) (default_bitrate args)
              else if PyStr.mem ext VIDEO_EXTS then
                out_path <- with_suffix_ input_path ".webm" ;;
                convert_file input_path out_path Video
                  (force args) (default_bitrate args)
              else if PyStr.mem ext AUDIO_EXTS then
                out_path <- with_suffix_ input_path ".webm" ;;
                convert_file input_path out_path Audio
                  (force args) (default_bitrate args)
              else ret tt)
           filenames)
      entries.

End Script.

(* ------------------------------------------------------------------ *)
(** ** Names for parts of the script *)
(* ------------------------------------------------------------------ *)

(** The command lines the script builds, by the place that builds them. *)
Definition ffmpeg_version_cmd : list string := ["ffmpeg"; "-version"].
Definition ffprobe_version_cmd : list string := ["ffprobe"; "-version"].

Definition has_audio_cmd (file_path : Path) : list string :=
  ["ffprobe"; "-v"; "error";
   "-select_streams"; "a";
   "-show_entries"; "stream=index";
   "-of"; "default=noprint_wrappers=1:nokey=1";
   path_str file_path].

Definition bitrate_cmd (file_path : Path) : list string :=
  ["ffprobe"; "-v"; "error";
   "-select_streams"; "a:0";
   "-show_entries"; "stream=bit_rate";
   "-of"; "default=noprint_wrappers=1:nokey=1";
   path_str file_path].

Definition image_cmd (input_path output_path : Path) : list string :=
  ["ffmpeg"; "-i"; path_str input_path;
   "-c:v"; "libwebp";
   "-lossless"; "1";
   "-compression_level"; "6";
   "-loop"; "0";
   "-an";
   "-y"; path_str output_path].

Definition video_audio_cmd (input_path output_path : Path)
    (audio_bitrate : string) : list string :=
  ["ffmpeg"; "-i"; path_str input_path;
   "-c:v"; "libvpx-vp9";
   "-lossless"; "1";
   "-b:v"; "0";
   "-pix_fmt"; "yuva420p";
   "-c:a"; "libopus";
   "-b:a"; audio_bitrate;
   "-y"; path_str output_path].

Definition video_silent_cmd (input_path output_path : Path) : list string :=
  ["ffmpeg"; "-i"; path_str input_path;
   "-c:v"; "libvpx-vp9";
   "-lossless"; "1";
   "-b:v"; "0";
   "-pix_fmt"; "yuva420p";
   "-an";
   "-y"; path_str output_path].

Definition audio_cmd (input_path output_path : Path)
    (audio_bitrate : string) : list string :=
  ["ffmpeg"; "-i"; path_str input_path;
   "-c:a"; "libopus";
   "-b:a"; audio_bitrate;
   "-y"; path_str output_path].

(** The class and the output extension that the if-chain in the loop of
    [main] picks for an input path, [None] when no table holds its
    lower-cased extension. *)
Definition classify (input_path : Path) : option (file_type * string) :=
  let ext := PyStr.lower (suffix input_path) in
  if PyStr.mem ext IMAGE_EXTS then Some (Image, ".webp")
  else if PyStr.mem ext VIDEO_EXTS then Some (Video, ".webm")
  else if PyStr.mem ext AUDIO_EXTS then Some (Audio, ".webm")
  else None.

(** The body of the inner loop of [main] for one [filename] of [dirpath]. *)
Definition process_file {W : Type} (os : OS W) (args : Args)
    (dirpath filename : string) : M W unit :=
  let input_path := mkPath dirpath filename in
  let ext := PyStr.lower (suffix input_path) in
  if PyStr.mem ext IMAGE_EXTS then
    out_path <- with_suffix_ input_path ".webp" ;;
    convert_file os input_path out_path Image
      (force args) (default_bitrate args)
  else if PyStr.mem ext VIDEO_EXTS then
    out_path <- with_suffix_ input_path ".webm" ;;
    convert_file os input_path out_path Video
      (force args) (default_bitrate args)
  else if PyStr.mem ext AUDIO_EXTS then
    out_path <- with_suffix_ input_path ".webm" ;;
    convert_file os input_path out_path Audio
      (force args) (default_bitrate args)
  else ret tt.

(* ------------------------------------------------------------------ *)
(** ** The vocabulary of the specification *)
(* ------------------------------------------------------------------ *)

(** "A non-empty string of decimal digits". *)
Definition decimal_digits (s : string) : bool :=
  PyStr.truthy s && PyStr.forallb PyStr.isdecimal s.

(** "Integer division by 1000, then clamp to the inclusive range
    [8, 510], and format as <integer>k". *)
Definition kbps_label (bps : N) : string :=
  PyStr.of_N (N.max 8 (N.min 510 (bps / 1000))) ++ "k".

(** The bit-rate probe as the specification words it, on the output with
    the white space around it removed and within the length that [int]
    accepts. *)
Definition probe_audio_bitrate_spec (o : proc_outcome) : option string :=
  match o with
  | Exited 0 out _ =>
      let value := PyStr.strip out in
      if decimal_digits value
         && (String.length value <=? PyStr.int_max_str_digits)%nat then
        let bps := PyStr.digits_value 0 value in
        if (bps =? 0)%N then None else Some (kbps_label bps)
      else None
  | _ => None
  end.

(** The stream probe in words: the query ended with status 0 and printed
    at least one character that is not white space. *)
Definition has_audio_stream_spec (o : proc_outcome) : bool :=
  match o with
  | Exited 0 out _ => negb (PyStr.forallb PyStr.isspace out)
  | _ => false
  end.

(** "The probed bitrate when the probe succeeds, otherwise the default". *)
Definition probed_or_default (probed : result (option string))
    (default_bitrate : string) : string :=
  match probed with
  | Ret (Some b) => b
  | _ => default_bitrate
  end.

(** The line printed about the bit rate that was chosen. *)
Definition bitrate_notice (ft : file_type) (probed : result (option string))
    (default_bitrate : string) : message :=
  match probed with
  | Ret (Some b) => MsgBitrateFound ft b
  | _ => MsgBitrateDefault ft default_bitrate
  end.

(** The extension lists as the specification writes them, without dot. *)
Definition image_names : list string :=
  ["jpg"; "jpeg"; "png"; "gif"; "bmp"; "tiff"; "tif"; "webp"; "apng"].
Definition video_names : list string :=
  ["mp4"; "avi"; "mov"; "mkv"; "flv"; "wmv"; "m4v"; "mpg"; "mpeg"].
Definition audio_names : list string :=
  ["mp3"; "flac"; "wav"; "aac"; "ogg"; "m4a"; "wma"; "opus"].

(** The same lists with the dot that [Path.suffix] keeps. *)
Definition dotted (names : list string) : list string :=
  map (fun e => "." ++ e) names.

(** The transcoder command lines among the events of a run: the child
    processes started as [ffmpeg -i ...]. *)
Definition is_transcode (cmd : list string) : bool :=
  match cmd with
  | prog :: flag :: _ => String.eqb prog "ffmpeg" && String.eqb flag "-i"
  | _ => false
  end.

Fixpoint transcoder_runs (t : list event) : list (list string) :=
  match t with
  | [] => []
  | EvRun cmd :: rest =>
      if is_transcode cmd then cmd :: transcoder_runs rest
      else transcoder_runs rest
  | _ :: rest => transcoder_runs rest
  end.

(** Every child process among the events of a run. *)
Fixpoint invocations (t : list event) : list (list string) :=
  match t with
  | [] => []
  | EvRun cmd :: rest => cmd :: invocations rest
  | _ :: rest => invocations rest
  end.

(** Equality of command lines. *)
Fixpoint cmd_eqb (a b : list string) : bool :=
  match a, b with
  | [], [] => true
  | x :: a', y :: b' => String.eqb x y && cmd_eqb a' b'
  | _, _ => false
  end.

(** How often a command line was started in a run. *)
Definition times_started (cmd : list string) (t : list event) : nat :=
  List.length (filter (cmd_eqb cmd) (invocations t)).

(** How a transcoder run ends for [convert_file]: any exit status is
    handled, the other exceptions of [subprocess.run] travel on. *)
Definition conversion_result (o : proc_outcome) : result unit :=
  match o with
  | Exited _ _ _ => Ret tt
  | NotFound => Raise FileNotFoundError
  | Failed => Raise OtherError
  | Undecodable _ => Raise UnicodeDecodeError
  end.

(** What [convert_file] prints after the transcoder ended. *)
Definition conversion_report (input_path : Path) (o : proc_outcome)
  : list event :=
  match o with
  | Exited 0 _ _ => []
  | Exited _ _ err => [EvPrint (MsgConvertError input_path err)]
  | _ => []
  end.

(** The three outcomes of a task in the specification.  [convert_file]
    returns nothing; the outcome is read off what the call printed. *)
Inductive outcome : Type := Converted | SkippedExists | FailedOrSkipped.

Definition reports_skip (e : event) : bool :=
  match e with EvPrint (MsgSkipExists _) => true | _ => false end.

Definition reports_failure (e : event) : bool :=
  match e with
  | EvPrint (MsgConvertError _ _) | EvPrint (MsgWarnNoAudioStream _) => true
  | _ => false
  end.

Definition outcome_of (t : list event) : outcome :=
  if existsb reports_skip t then SkippedExists
  else if existsb reports_failure t then FailedOrSkipped
  else Converted.

(** The transcoder command of a task that is not skipped, and the state in
    which it is started: after the probes that the class asks for.  An
    audio task whose source has no audio stream starts no transcoder. *)
Definition transcoder_start {W : Type} (os : OS W) (inp out : Path)
    (ft : file_type) (dflt : string) (w : W) : option (list string * W) :=
  let probe := has_audio_stream os inp w in
  let rate := get_audio_bitrate os inp (world_of probe) in
  match ft, result_of probe with
  | Image, _ => Some (image_cmd inp out, w)
  | Video, Ret true =>
      Some (video_audio_cmd inp out (probed_or_default (result_of rate) dflt),
            world_of rate)
  | Video, Ret false => Some (video_silent_cmd inp out, world_of probe)
  | Audio, Ret true =>
      Some (audio_cmd inp out (probed_or_default (result_of rate) dflt),
            world_of rate)
  | _, _ => None
  end.

(** A required tool is missing, or its version query exits non-zero. *)
Definition unusable (o : proc_outcome) : bool :=
  match o with
  | Exited 0 _ _ | Undecodable 0 => false
  | Exited _ _ _ | Undecodable _ => true
  | NotFound => true
  | Failed => false
  end.

(** [path.exists()] returns: the path is there, or the failed [stat] is
    one that [exists()] reports as an absent path. *)
Definition exists_returns {W : Type} (os : OS W) (p : Path) (w : W) : bool :=
  path_exists os p w || negb (exists_raises os p w).


(** A version query, whose output is not decoded, ended with status 0. *)
Definition answers (o : proc_outcome) : bool :=
  match o with
  | Exited 0 _ _ | Undecodable 0 => true
  | _ => false
  end.

(** A query with [text=True] ended with status 0 and readable output. *)
Definition usable (o : proc_outcome) : bool :=
  match o with
  | Exited 0 _ _ => true
  | _ => false
  end.


(** The command lines that [convert_file] can start for the task of
    converting [inp] into [out]. *)
Definition task_command (inp out : Path) (cmd : list string) : Prop :=
  cmd = has_audio_cmd inp
  \/ cmd = bitrate_cmd inp
  \/ cmd = image_cmd inp out
  \/ (exists br, cmd = video_audio_cmd inp out br)
  \/ cmd = video_silent_cmd inp out
  \/ (exists br, cmd = audio_cmd inp out br).

(** An event of that task: one of its commands, or a printed line. *)
Definition task_event (inp out : Path) (e : event) : Prop :=
  match e with
  | EvRun cmd => task_command inp out cmd
  | EvPrint _ => True
  | EvWalk _ => False
  end.

(** An event of the task of a file of the tree: the file is [filename] in
    [dirpath], some table holds its extension, and the destination is the
    source with the suffix replaced. *)
Definition file_event (tree : list (string * list string)) (e : event)
  : Prop :=
  exists dirpath filenames filename ft oe out,
    In (dirpath, filenames) tree
    /\ In filename filenames
    /\ classify (mkPath dirpath filename) = Some (ft, oe)
    /\ with_suffix (mkPath dirpath filename) oe = Some out
    /\ task_event (mkPath dirpath filename) out e.

(* ------------------------------------------------------------------ *)
(** ** A scripted operating system for concrete runs *)
(* ------------------------------------------------------------------ *)

(** A scenario fixes what every external command answers and what the tree
    holds.  Its state is the list of the paths that exist; a transcoder run
    that ends with status 0 creates its destination, the last argument. *)
Record Scenario : Type := mkScenario {
  sc_ffmpeg_version : proc_outcome;
  sc_ffprobe_version : proc_outcome;
  sc_streams : string -> proc_outcome;    (** stream-index probe of a file *)
  sc_bitrate : string -> proc_outcome;    (** bit-rate probe of a file *)
  sc_transcode : string -> proc_outcome;  (** transcoding of a source file *)
  sc_is_dir : bool;
  sc_tree : list (string * list string);
  sc_unreadable : list string   (** paths that cannot be stat'ed at all *)
}.

Definition scenario_answer (sc : Scenario) (cmd : list string)
  : proc_outcome :=
  if cmd_eqb cmd ffmpeg_version_cmd then sc_ffmpeg_version sc
  else if cmd_eqb cmd ffprobe_version_cmd then sc_ffprobe_version sc
  else if String.eqb (hd "" cmd) "ffprobe" then
    if String.eqb (nth 4 cmd "") "a" then sc_streams sc (last cmd "")
    else sc_bitrate sc (last cmd "")
  else sc_transcode sc (nth 2 cmd "").

Definition scenario_spawn (sc : Scenario) (cmd : list string)
    (w : list string) : proc_outcome * list string :=
  let o := scenario_answer sc cmd in
  (o,
   match o with
   | Exited 0 _ _ | Undecodable 0 =>
       if String.eqb (hd "" cmd) "ffmpeg"
          && negb (cmd_eqb cmd ffmpeg_version_cmd)
       then last cmd "" :: w
       else w
   | _ => w
   end).

Definition scenario_os (sc : Scenario) : OS (list string) :=
  mkOS (list string)
    (scenario_spawn sc)
    (fun p w => PyStr.mem (path_str p) w)
    (fun p _ => PyStr.mem (path_str p) (sc_unreadable sc))
    (fun d _ => d)
    (fun _ _ => sc_is_dir sc)
    (fun _ _ => sc_tree sc).

(** The line feed that ends every line a tool prints. *)
Definition LF : string := String "010"%char "".

(** A process that prints [stdout] and ends with status 0. *)
Definition ok (stdout : string) : proc_outcome := Exited 0 stdout "".

(** The exit status and the events of a whole run in a scenario. *)
Definition run_main (sc : Scenario) (args : Args) (w : list string)
  : Z * list event :=
  let x := main (scenario_os sc) args w in
  (exit_status (result_of x), trace_of x).

(** The files of the concrete runs. *)
Definition song : Path := mkPath "/music" "song.mp3".
Definition song_out : Path := mkPath "/music" "song.webm".
Definition clip : Path := mkPath "/films" "clip.mp4".
Definition clip_out : Path := mkPath "/films" "clip.webm".
Definition logo_upper : Path := mkPath "/pics" "LOGO.WEBP".
Definition logo_lower : Path := mkPath "/pics" "LOGO.webp".

(** Both tools present, every file has one audio stream of 128000 bit/s,
    every transcoding succeeds. *)
Definition healthy (tree : list (string * list string)) : Scenario :=
  mkScenario (ok "") (ok "")
    (fun _ => ok ("1" ++ LF)) (fun _ => ok ("128000" ++ LF)) (fun _ => ok "")
    true tree [].

(** The stream probe succeeds and prints one empty line for the song, and
    a line that is no stream index for every other file. *)
Definition blank_probe : Scenario :=
  mkScenario (ok "") (ok "")
    (fun f => if String.eqb f "/music/song.mp3" then ok LF
              else ok ("N/A" ++ LF))
    (fun _ => ok ("128000" ++ LF)) (fun _ => ok "")
    true [] [].

(** Both tools present, but no file has an audio stream: the stream probe
    prints nothing. *)
Definition no_streams : Scenario :=
  mkScenario (ok "") (ok "")
    (fun _ => ok "") (fun _ => ok ("128000" ++ LF)) (fun _ => ok "")
    true [] [].

(** Audio streams whose bit rate the probe cannot tell ("N/A"). *)
Definition unknown_bitrate : Scenario :=
  mkScenario (ok "") (ok "")
    (fun _ => ok ("0" ++ LF)) (fun _ => ok ("N/A" ++ LF)) (fun _ => ok "")
    true [] [].

(** The first of two pictures cannot be encoded, the second can. *)
Definition first_fails : Scenario :=
  mkScenario (ok "") (ok "")
    (fun _ => ok ("0" ++ LF)) (fun _ => ok ("128000" ++ LF))
    (fun src => if String.eqb src "/in/a.png"
                then Exited 1 "" "Invalid data found"
                else ok "")
    true [("/in", ["a.png"; "b.png"])] [].

(** The probing tool is not installed. *)
Definition no_ffprobe : Scenario :=
  mkScenario (ok "") NotFound
    (fun _ => NotFound) (fun _ => NotFound) (fun _ => ok "")
    true [("/in", ["a.png"; "b.png"])] [].

(** A tree that holds a film next to the WebM made from it earlier. *)
Definition second_pass : Scenario :=
  healthy [("/films", ["clip.mp4"; "clip.webm"])].

(** The transcoder is removed after the dependency check: starting it for a
    file raises [FileNotFoundError]. *)
Definition vanished : Scenario :=
  mkScenario (ok "") (ok "")
    (fun _ => ok ("0" ++ LF)) (fun _ => ok ("128000" ++ LF))
    (fun _ => NotFound)
    true [("/in", ["a.png"; "b.png"])] [].

(** The stream probe exits with status 1 for every file. *)
Definition probe_fails : Scenario :=
  mkScenario (ok "") (ok "")
    (fun _ => Exited 1 "" "Invalid data found")
    (fun _ => ok ("128000" ++ LF)) (fun _ => ok "")
    true [] [].

(** The root given on the command line is a regular file. *)
Definition not_a_directory : Scenario :=
  mkScenario (ok "") (ok "")
    (fun _ => ok ("0" ++ LF)) (fun _ => ok ("128000" ++ LF)) (fun _ => ok "")
    false [] [].

(** A tree whose two sources are already converted. *)
Definition converted_tree : Scenario :=
  healthy [("/films", ["clip.mp4"]); ("/pics", ["LOGO.WEBP"])].

(** [n] times the digit 7. *)
Fixpoint sevens (n : nat) : string :=
  match n with
  | O => ""
  | S k => String "7"%char (sevens k)
  end.

(** The bit-rate probe prints 4301 digits and nothing else. *)
Definition huge_bitrate : Scenario :=
  mkScenario (ok "") (ok "")
    (fun _ => ok ("0" ++ LF)) (fun _ => ok (sevens 4301)) (fun _ => ok "")
    true [] [].


(** The transcoder is installed without the right to execute it, and the
    probing tool is not installed. *)
Definition ffmpeg_not_executable : Scenario :=
  mkScenario Failed NotFound
    (fun _ => NotFound) (fun _ => NotFound) (fun _ => Failed)
    true [("/in", ["a.png"; "b.png"])] [].

(** The destination of the song cannot be examined: the search of its
    directory is denied. *)
Definition denied : Scenario :=
  mkScenario (ok "") (ok "")
    (fun _ => ok ("0" ++ LF)) (fun _ => ok ("128000" ++ LF)) (fun _ => ok "")
    true [("/music", ["song.mp3"])] ["/music/song.webm"].

(* ================================================================== *)
(** * Properties *)
(* ================================================================== *)

(* ------------------------------------------------------------------ *)
(** ** Strings *)
(* ------------------------------------------------------------------ *)

Lemma isdecimal_isdigit_char c :
  PyStr.isdecimal c = true -> PyStr.isdigit_char c = true.
Proof. unfold PyStr.isdigit_char. intros ->. reflexivity. Qed.

Lemma isdecimal_not_space c :
  PyStr.isdecimal c = true -> PyStr.isspace c = false.
Proof.
  unfold PyStr.isdecimal, PyStr.isspace.
  generalize (N_of_ascii c). intros n H.
  apply andb_true_iff in H. destruct H as [H1 H2].
  apply N.leb_le in H1. apply N.leb_le in H2.
  repeat match goal with
         | |- orb _ _ = false => apply orb_false_iff; split
         | |- andb _ _ = false => apply andb_false_iff
         end;
    try (right; apply N.leb_gt; lia);
    try (apply N.eqb_neq; lia).
Qed.

Lemma forallb_isdecimal_isdigit s :
  PyStr.forallb PyStr.isdecimal s = true ->
  PyStr.forallb PyStr.isdigit_char s = true.
Proof.
  induction s as [|c r IH]; simpl; [reflexivity|].
  intros H. apply andb_true_iff in H. destruct H as [Hc Hr].
  rewrite (isdecimal_isdigit_char _ Hc), (IH Hr). reflexivity.
Qed.

Lemma decimal_digits_isdigit s :
  decimal_digits s = true -> PyStr.isdigit s = true.
Proof.
  unfold decimal_digits, PyStr.isdigit. intros H.
  apply andb_true_iff in H. destruct H as [Ht Hd].
  rewrite Ht, (forallb_isdecimal_isdigit _ Hd). reflexivity.
Qed.

Lemma int_decimal_digits s :
  PyStr.int s =
  if decimal_digits s
     && (String.length s <=? PyStr.int_max_str_digits)%nat
  then Some (PyStr.digits_value 0 s) else None.
Proof.
  unfold PyStr.int, decimal_digits.
  destruct (PyStr.truthy s && PyStr.forallb PyStr.isdecimal s); reflexivity.
Qed.

(** The white space test of [strip] only looks at the two ends. *)
Lemma rstrip_no_space s :
  PyStr.forallb (fun c => negb (PyStr.isspace c)) s = true ->
  PyStr.rstrip s = s.
Proof.
  induction s as [|c r IH]; simpl; [reflexivity|].
  intros H. apply andb_true_iff in H. destruct H as [Hc Hr].
  rewrite (IH Hr). apply negb_true_iff in Hc. rewrite Hc.
  destruct r; reflexivity.
Qed.

Lemma lstrip_no_space s :
  PyStr.forallb (fun c => negb (PyStr.isspace c)) s = true ->
  PyStr.lstrip s = s.
Proof.
  destruct s as [|c r]; simpl; [reflexivity|].
  intros H. apply andb_true_iff in H. destruct H as [Hc _].
  apply negb_true_iff in Hc. rewrite Hc. reflexivity.
Qed.

Lemma forallb_impl (p q : ascii -> bool) s :
  (forall c, p c = true -> q c = true) ->
  PyStr.forallb p s = true -> PyStr.forallb q s = true.
Proof.
  intros Hpq. induction s as [|c r IH]; simpl; [reflexivity|].
  intros H. apply andb_true_iff in H. destruct H as [Hc Hr].
  rewrite (Hpq _ Hc), (IH Hr). reflexivity.
Qed.

Lemma strip_decimal_digits s :
  decimal_digits s = true -> PyStr.strip s = s.
Proof.
  unfold decimal_digits. intros H.
  apply andb_true_iff in H. destruct H as [_ Hd].
  assert (Hn : PyStr.forallb (fun c => negb (PyStr.isspace c)) s = true).
  { revert Hd. apply forallb_impl. intros c Hc.
    rewrite (isdecimal_not_space _ Hc). reflexivity. }
  unfold PyStr.strip. rewrite (lstrip_no_space _ Hn). apply rstrip_no_space, Hn.
Qed.

Lemma clamp_max_min k :
  (if k <? 8 then 8 else if 510 <? k then 510 else k)%N
  = N.max 8 (N.min 510 k).
Proof.
  destruct (N.ltb_spec k 8); [lia|].
  destruct (N.ltb_spec 510 k); lia.
Qed.

(* ------------------------------------------------------------------ *)
(** ** The two probes *)
(* ------------------------------------------------------------------ *)

Section Probes.

Context {W : Type} (os : OS W).

(** One run of the bit-rate probe: one child process, never an exception,
    and the value the wording gives for what the process answered. *)
Lemma get_audio_bitrate_run p w :
  get_audio_bitrate os p w =
  (Ret (probe_audio_bitrate_spec (fst (spawn os (bitrate_cmd p) w))),
   snd (spawn os (bitrate_cmd p) w),
   [EvRun (bitrate_cmd p)]).
Proof.
  unfold get_audio_bitrate, try_except, bind, subprocess_run.
  fold (bitrate_cmd p).
  destruct (spawn os (bitrate_cmd p) w) as [o w'].
  destruct o as [rc out err| | |urc]; [destruct rc|..]; try reflexivity.
  cbn [fst snd probe_audio_bitrate_spec]. unfold int_.
  rewrite int_decimal_digits.
  destruct (decimal_digits (PyStr.strip out)) eqn:Hd.
  - rewrite (decimal_digits_isdigit _ Hd).
    unfold decimal_digits in Hd. apply andb_true_iff in Hd.
    destruct Hd as [-> _]. cbn [andb].
    destruct (String.length (PyStr.strip out) <=? PyStr.int_max_str_digits)%nat;
      [|reflexivity].
    unfold ret. cbv iota beta.
    destruct (PyStr.digits_value 0 (PyStr.strip out) =? 0)%N; [reflexivity|].
    unfold kbps_label. rewrite clamp_max_min. reflexivity.
  - cbn [andb].
    destruct (PyStr.truthy (PyStr.strip out) && PyStr.isdigit (PyStr.strip out));
      reflexivity.
Qed.

Lemma lstrip_all_space s :
  PyStr.forallb PyStr.isspace s = true -> PyStr.lstrip s = "".
Proof.
  induction s as [|c r IH]; simpl; [reflexivity|].
  intros H. apply andb_true_iff in H. destruct H as [-> Hr]. exact (IH Hr).
Qed.

Lemma lstrip_some_char s :
  PyStr.forallb PyStr.isspace s = false ->
  exists c r, PyStr.lstrip s = String c r /\ PyStr.isspace c = false.
Proof.
  induction s as [|c r IH]; simpl; [discriminate|].
  destruct (PyStr.isspace c) eqn:Hc; simpl.
  - exact IH.
  - intros _. exists c, r. split; [reflexivity | exact Hc].
Qed.

Lemma rstrip_keeps_head c r :
  PyStr.isspace c = false -> PyStr.truthy (PyStr.rstrip (String c r)) = true.
Proof.
  intros Hc. simpl. rewrite Hc. destruct (PyStr.rstrip r); reflexivity.
Qed.

(** [bool(s.strip())] holds exactly when [s] has a character that is not
    white space. *)
Lemma truthy_strip s :
  PyStr.truthy (PyStr.strip s) = negb (PyStr.forallb PyStr.isspace s).
Proof.
  unfold PyStr.strip.
  destruct (PyStr.forallb PyStr.isspace s) eqn:Hs.
  - rewrite (lstrip_all_space _ Hs). reflexivity.
  - destruct (lstrip_some_char _ Hs) as (c & r & -> & Hc).
    exact (rstrip_keeps_head c r Hc).
Qed.

(** One run of the stream probe: one child process, never an exception. *)
Lemma has_audio_stream_run p w :
  has_audio_stream os p w =
  (Ret (has_audio_stream_spec (fst (spawn os (has_audio_cmd p) w))),
   snd (spawn os (has_audio_cmd p) w),
   [EvRun (has_audio_cmd p)]).
Proof.
  unfold has_audio_stream, try_except, bind, subprocess_run, ret.
  fold (has_audio_cmd p).
  destruct (spawn os (has_audio_cmd p) w) as [o w'].
  destruct o as [rc out err| | |urc]; [destruct rc|..]; simpl;
    rewrite ?truthy_strip; reflexivity.
Qed.

End Probes.

(** C1, as amended.  For every probe of a file: when the query ends with
    status 0 and its output, with the white space around it removed, is a
    non-empty string of at most 4300 decimal digits of value b > 0,
    [get_audio_bitrate] returns "<k>k" with k = b // 1000 clamped to
    [8, 510]; when the trimmed output is a string of more than 4300 decimal
    digits, or its value is 0, or it is empty or not all decimal digits, or
    the query fails in any way, it returns None.  It runs the one query and
    never raises.  5000 gives "8k", 600000000 gives "510k", 128000 gives
    "128k". *)
Theorem get_audio_bitrate_trimmed :
  forall (W : Type) (os : OS W) (p : Path) (w : W),
    let o := fst (spawn os (bitrate_cmd p) w) in
    let r := result_of (get_audio_bitrate os p w) in
    (forall out err, o = Exited 0 out err ->
       let v := PyStr.strip out in
       (decimal_digits v = true ->
        (String.length v <= PyStr.int_max_str_digits)%nat ->
        PyStr.digits_value 0 v <> 0%N ->
        r = Ret (Some (PyStr.of_N
                         (N.max 8 (N.min 510 (PyStr.digits_value 0 v / 1000)))
                       ++ "k")))
       /\ (decimal_digits v = true ->
           (PyStr.int_max_str_digits < String.length v)%nat ->
           r = Ret None)
       /\ (decimal_digits v = true -> PyStr.digits_value 0 v = 0%N ->
           r = Ret None)
       /\ (decimal_digits v = false -> r = Ret None))
    /\ ((forall out err, o <> Exited 0 out err) -> r = Ret None)
    /\ (exists b : option string,
          get_audio_bitrate os p w
          = (Ret b, snd (spawn os (bitrate_cmd p) w), [EvRun (bitrate_cmd p)]))
    /\ (forall out, decimal_digits out = true -> PyStr.strip out = out)
    /\ (forall err, o = Exited 0 "5000" err -> r = Ret (Some "8k"))
    /\ (forall err, o = Exited 0 "600000000" err -> r = Ret (Some "510k"))
    /\ (forall err, o = Exited 0 "128000" err -> r = Ret (Some "128k"))
    /\ (forall err, o = Exited 0 "0" err -> r = Ret None).
Proof.
  intros W os p w o r.
  assert (Hr : r = Ret (probe_audio_bitrate_spec o)).
  { unfold r, o. rewrite get_audio_bitrate_run. reflexivity. }
  split; [|split; [|split; [|repeat split]]];
    try (intros err Ho; rewrite Hr, Ho; reflexivity).
  - intros out err Ho v. rewrite Hr, Ho. unfold probe_audio_bitrate_spec.
    fold v. repeat split.
    + intros -> Hlen Hnz. apply Nat.leb_le in Hlen. rewrite Hlen.
      apply N.eqb_neq in Hnz. rewrite Hnz. reflexivity.
    + intros -> Hlen. apply Nat.leb_gt in Hlen. rewrite Hlen. reflexivity.
    + intros -> Hz. apply N.eqb_eq in Hz. rewrite Hz.
      destruct (String.length v <=? PyStr.int_max_str_digits)%nat;
        reflexivity.
    + intros ->. reflexivity.
  - intros Hno. rewrite Hr.
    destruct o as [rc out err| | |urc]; [destruct rc|..]; try reflexivity.
    exfalso. exact (Hno out err eq_refl).
  - eexists. apply get_audio_bitrate_run.
  - exact strip_decimal_digits.
Qed.

Lemma get_audio_bitrate_trimmed_witness :
  result_of (get_audio_bitrate (scenario_os (healthy [])) song [])
  = Ret (Some "128k").
Proof.
  destruct (get_audio_bitrate_trimmed _ (scenario_os (healthy [])) song [])
    as [H _].
  destruct (H ("128000" ++ LF) "" eq_refl) as [H1 _].
  apply H1; [reflexivity | apply Nat.leb_le; reflexivity | discriminate].
Defined.

(** C1 as stated fails in two ways.  The probing tool ends its output with
    a line feed, so the output "128000\n" is not all digits, and the
    function still returns "128k", not None.  And an output of 4301 digits
    "7" is a non-empty string of decimal digits of a value above 0, and the
    function returns None: the conversion of so long a string to an integer
    raises [ValueError], which the function catches. *)
Lemma get_audio_bitrate_untrimmed_counterexample :
  (let os := scenario_os (healthy []) in
   let out := "128000" ++ LF in
   fst (spawn os (bitrate_cmd song) []) = Exited 0 out ""
   /\ decimal_digits out = false
   /\ result_of (get_audio_bitrate os song []) = Ret (Some "128k"))
  /\ (let os := scenario_os huge_bitrate in
      let out := sevens 4301 in
      fst (spawn os (bitrate_cmd song) []) = Exited 0 out ""
      /\ decimal_digits out = true
      /\ (0 < PyStr.digits_value 0 out)%N
      /\ result_of (get_audio_bitrate os song []) = Ret None).
Proof. vm_compute. repeat split. Qed.

Lemma truthy_nonempty s : PyStr.truthy s = true <-> s <> "".
Proof. destruct s; simpl; split; congruence. Qed.

(** C6, as amended.  For every input path [has_audio_stream] runs one
    query, never raises, and returns true exactly when the query ends with
    status 0 and its output is non-empty after the white space around it
    is removed; a missing tool, a non-zero exit, any other exception, and
    empty or blank output all give false.  The output is not checked to be
    a stream index. *)
Theorem has_audio_stream_trimmed :
  forall (W : Type) (os : OS W) (p : Path) (w : W),
    let o := fst (spawn os (has_audio_cmd p) w) in
    exists b : bool,
      has_audio_stream os p w
      = (Ret b, snd (spawn os (has_audio_cmd p) w), [EvRun (has_audio_cmd p)])
      /\ (b = true <->
          exists out err, o = Exited 0 out err /\ PyStr.strip out <> "").
Proof.
  intros W os p w o. exists (has_audio_stream_spec o). split.
  - apply has_audio_stream_run.
  - destruct o as [rc out err| | |urc]; [destruct rc|..]; simpl;
      try (split; [discriminate | intros (? & ? & [=] & _)]).
    rewrite <- truthy_strip, truthy_nonempty. split.
    + intros H. exists out, err. split; [reflexivity | exact H].
    + intros (out' & err' & [= -> ->] & H). exact H.
Qed.

(** C6 as stated fails, whichever way "non-empty output (at least one
    audio stream index)" is read.  Read as a non-empty string: the query
    succeeds and prints one line feed, and the function returns false.
    Read as an output that holds a stream index: the query succeeds and
    prints "N/A", which is no index, and the function returns true. *)
Lemma has_audio_stream_blank_counterexample :
  let os := scenario_os blank_probe in
  let film := clip in
  (fst (spawn os (has_audio_cmd song) []) = Exited 0 LF ""
   /\ LF <> ""
   /\ result_of (has_audio_stream os song []) = Ret false)
  /\ (fst (spawn os (has_audio_cmd film) []) = Exited 0 ("N/A" ++ LF) ""
      /\ decimal_digits (PyStr.strip ("N/A" ++ LF)) = false
      /\ result_of (has_audio_stream os film []) = Ret true).
Proof. repeat split. discriminate. Qed.

(* ------------------------------------------------------------------ *)
(** ** Paths *)
(* ------------------------------------------------------------------ *)

Lemma substring_whole s : substring 0 (String.length s) s = s.
Proof. induction s as [|c r IH]; simpl; [reflexivity | now rewrite IH]. Qed.

Lemma substring_split s : forall i,
  i <= String.length s ->
  substring 0 i s ++ substring i (String.length s - i) s = s.
Proof.
  induction s as [|c r IH]; intros [|i] Hi; simpl in *; try reflexivity.
  - now rewrite substring_whole.
  - rewrite IH by lia. reflexivity.
Qed.

Lemma substring_length s : forall i,
  i <= String.length s ->
  String.length (substring i (String.length s - i) s) = String.length s - i.
Proof.
  induction s as [|c r IH]; intros [|i] Hi; simpl in *; try reflexivity.
  - now rewrite substring_whole.
  - apply IH. lia.
Qed.

Lemma substring_app_left a b :
  substring 0 (String.length a) (a ++ b) = a.
Proof.
  induction a as [|c r IH]; simpl.
  - destruct b; reflexivity.
  - now rewrite IH.
Qed.

Lemma substring_app_right a b :
  substring (String.length a) (String.length b) (a ++ b) = b.
Proof.
  induction a as [|c r IH]; simpl; [apply substring_whole | exact IH].
Qed.

Lemma app_length a b :
  String.length (a ++ b) = String.length a + String.length b.
Proof. induction a as [|c r IH]; simpl; [reflexivity | now rewrite IH]. Qed.

Lemma rfind_app c a b :
  PyStr.rfind c (a ++ b) =
  match PyStr.rfind c b with
  | Some j => Some (String.length a + j)
  | None => PyStr.rfind c a
  end.
Proof.
  induction a as [|x r IH]; simpl.
  - destruct (PyStr.rfind c b); reflexivity.
  - rewrite IH. destruct (PyStr.rfind c b); reflexivity.
Qed.

(** A name with a suffix splits into a non-empty stem and that suffix. *)
Lemma suffix_of_split nm :
  suffix_of nm <> "" ->
  exists st, nm = st ++ suffix_of nm
             /\ st <> ""
             /\ st = substring 0 (String.length nm
                                   - String.length (suffix_of nm)) nm.
Proof.
  unfold suffix_of.
  destruct (PyStr.rfind "." nm) as [i|] eqn:Hf; [|congruence].
  destruct ((0 <? i)%nat && (i <? String.length nm - 1)%nat) eqn:Hi;
    [|congruence].
  intros _. apply andb_true_iff in Hi. destruct Hi as [H0 H1].
  apply Nat.ltb_lt in H0. apply Nat.ltb_lt in H1.
  assert (Hle : i <= String.length nm) by lia.
  rewrite (substring_length nm i Hle).
  replace (String.length nm - (String.length nm - i)) with i by lia.
  exists (substring 0 i nm). repeat split.
  - symmetry. apply substring_split, Hle.
  - destruct nm as [|c r]; [simpl in H1; lia|].
    destruct i; [lia | discriminate].
Qed.

(** Putting a well-formed extension after a non-empty stem gives a name
    whose suffix is that extension and whose stem is that stem. *)
Lemma suffix_of_app st ext :
  st <> "" ->
  PyStr.rfind "." ext = Some 0 ->
  2 <= String.length ext ->
  suffix_of (st ++ ext) = ext
  /\ substring 0 (String.length (st ++ ext) - String.length ext) (st ++ ext)
     = st.
Proof.
  intros Hst Hdot Hlen. unfold suffix_of.
  rewrite rfind_app, Hdot, Nat.add_0_r, app_length.
  assert (0 < String.length st) by (destruct st; [congruence | simpl; lia]).
  replace ((0 <? String.length st)%nat) with true
    by (symmetry; apply Nat.ltb_lt; lia).
  replace ((String.length st <? String.length st + String.length ext - 1)%nat)
    with true by (symmetry; apply Nat.ltb_lt; lia).
  simpl andb. cbv iota.
  replace (String.length st + String.length ext - String.length st)
    with (String.length ext) by lia.
  replace (String.length st + String.length ext - String.length ext)
    with (String.length st) by lia.
  split; [apply substring_app_right | apply substring_app_left].
Qed.

(* ------------------------------------------------------------------ *)
(** ** Classification *)
(* ------------------------------------------------------------------ *)

Lemma mem_dotted_true x e names :
  In e names -> x = "." ++ e -> PyStr.mem x (dotted names) = true.
Proof.
  intros Hin ->. unfold PyStr.mem, dotted. apply existsb_exists.
  exists ("." ++ e). split; [apply in_map, Hin | apply String.eqb_refl].
Qed.

Lemma mem_dotted_false x names :
  (forall e, In e names -> x <> "." ++ e) ->
  PyStr.mem x (dotted names) = false.
Proof.
  intros H. unfold PyStr.mem, dotted.
  destruct (existsb (String.eqb x) (map (fun e => "." ++ e) names)) eqn:E;
    [|reflexivity].
  apply existsb_exists in E. destruct E as (y & Hy & Hxy).
  apply in_map_iff in Hy. destruct Hy as (e & <- & He).
  apply String.eqb_eq in Hxy. exfalso. exact (H e He Hxy).
Qed.

Lemma mem_dotted_inv x names :
  PyStr.mem x (dotted names) = true -> exists e, In e names /\ x = "." ++ e.
Proof.
  unfold PyStr.mem, dotted. intros E.
  apply existsb_exists in E. destruct E as (y & Hy & Hxy).
  apply in_map_iff in Hy. destruct Hy as (e & <- & He).
  apply String.eqb_eq in Hxy. exists e. split; assumption.
Qed.

Lemma tables_dotted :
  IMAGE_EXTS = dotted image_names
  /\ VIDEO_EXTS = dotted video_names
  /\ AUDIO_EXTS = dotted audio_names.
Proof. repeat split. Qed.

(** No extension sits in two tables. *)
Lemma tables_disjoint x :
  (PyStr.mem x IMAGE_EXTS = true -> PyStr.mem x VIDEO_EXTS = false
                                    /\ PyStr.mem x AUDIO_EXTS = false)
  /\ (PyStr.mem x VIDEO_EXTS = true -> PyStr.mem x AUDIO_EXTS = false).
Proof.
  destruct tables_dotted as (Hi & Hv & Ha). split.
  - rewrite Hi. intros H. apply mem_dotted_inv in H.
    destruct H as (e & He & ->). simpl in He.
    repeat (destruct He as [<- | He]; [split; reflexivity|]). contradiction.
  - rewrite Hv. intros H. apply mem_dotted_inv in H.
    destruct H as (e & He & ->). simpl in He.
    repeat (destruct He as [<- | He]; [reflexivity|]). contradiction.
Qed.

Lemma classify_image p e :
  In e image_names -> PyStr.lower (suffix p) = "." ++ e ->
  classify p = Some (Image, ".webp").
Proof.
  intros He Hx. unfold classify.
  rewrite (proj1 tables_dotted), (mem_dotted_true _ e _ He Hx). reflexivity.
Qed.

Lemma classify_video p e :
  In e video_names -> PyStr.lower (suffix p) = "." ++ e ->
  classify p = Some (Video, ".webm").
Proof.
  intros He Hx. unfold classify.
  assert (Hv : PyStr.mem (PyStr.lower (suffix p)) VIDEO_EXTS = true).
  { rewrite (proj1 (proj2 tables_dotted)). exact (mem_dotted_true _ e _ He Hx). }
  destruct (PyStr.mem (PyStr.lower (suffix p)) IMAGE_EXTS) eqn:Hi.
  - apply (proj1 (tables_disjoint _)) in Hi. destruct Hi; congruence.
  - rewrite Hv. reflexivity.
Qed.

Lemma classify_audio p e :
  In e audio_names -> PyStr.lower (suffix p) = "." ++ e ->
  classify p = Some (Audio, ".webm").
Proof.
  intros He Hx. unfold classify.
  assert (Ha : PyStr.mem (PyStr.lower (suffix p)) AUDIO_EXTS = true).
  { rewrite (proj2 (proj2 tables_dotted)). exact (mem_dotted_true _ e _ He Hx). }
  destruct (PyStr.mem (PyStr.lower (suffix p)) IMAGE_EXTS) eqn:Hi.
  - apply (proj1 (tables_disjoint _)) in Hi. destruct Hi; congruence.
  - destruct (PyStr.mem (PyStr.lower (suffix p)) VIDEO_EXTS) eqn:Hv.
    + apply (proj2 (tables_disjoint _)) in Hv. congruence.
    + rewrite Ha. reflexivity.
Qed.

Lemma classify_none p :
  (forall e, In e (image_names ++ video_names ++ audio_names) ->
             PyStr.lower (suffix p) <> "." ++ e) ->
  classify p = None.
Proof.
  intros H. unfold classify.
  destruct tables_dotted as (-> & -> & ->).
  rewrite !mem_dotted_false; [reflexivity|..];
    intros e He; apply H; rewrite !in_app_iff; tauto.
Qed.

(** What [classify] can answer, and from which table. *)
Lemma classify_inv p ft oe :
  classify p = Some (ft, oe) ->
  exists e, PyStr.lower (suffix p) = "." ++ e
    /\ ((ft = Image /\ oe = ".webp" /\ In e image_names)
        \/ (ft = Video /\ oe = ".webm" /\ In e video_names)
        \/ (ft = Audio /\ oe = ".webm" /\ In e audio_names)).
Proof.
  unfold classify. destruct tables_dotted as (-> & -> & ->).
  destruct (PyStr.mem _ (dotted image_names)) eqn:Hi;
    [|destruct (PyStr.mem _ (dotted video_names)) eqn:Hv;
      [|destruct (PyStr.mem _ (dotted audio_names)) eqn:Ha]];
    intros [= <- <-].
  - apply mem_dotted_inv in Hi. destruct Hi as (e & ? & ?). exists e. tauto.
  - apply mem_dotted_inv in Hv. destruct Hv as (e & ? & ?). exists e. tauto.
  - apply mem_dotted_inv in Ha. destruct Ha as (e & ? & ?). exists e. tauto.
Qed.

Lemma classify_has_suffix p ft oe :
  classify p = Some (ft, oe) -> suffix p <> "".
Proof.
  intros H Hs. unfold classify in H. rewrite Hs in H. discriminate.
Qed.

(** Replacing the suffix of a name that has one: same directory, same stem,
    the new suffix. *)
Lemma with_suffix_replaces p oe :
  suffix p <> "" -> oe = ".webp" \/ oe = ".webm" ->
  exists out, with_suffix p oe = Some out
    /\ parent out = parent p
    /\ stem out = stem p
    /\ suffix out = oe
    /\ name out = stem p ++ oe.
Proof.
  intros Hs Hoe. unfold suffix in Hs.
  destruct (suffix_of_split _ Hs) as (st & Hnm & Hst & Hsub).
  assert (Hname : PyStr.truthy (name p) = true).
  { rewrite Hnm. destruct st; [congruence | reflexivity]. }
  assert (Hold : PyStr.truthy (suffix p) = true).
  { apply truthy_nonempty. exact Hs. }
  assert (Hstem : stem p = st) by (unfold stem, suffix; congruence).
  exists (mkPath (parent p) (st ++ oe)).
  assert (Hw : with_suffix p oe = Some (mkPath (parent p) (st ++ oe))).
  { unfold with_suffix. rewrite Hname, Hold.
    unfold suffix at 1. rewrite <- Hsub.
    destruct Hoe as [-> | ->]; reflexivity. }
  assert (Hsa : suffix_of (st ++ oe) = oe
                /\ substring 0 (String.length (st ++ oe) - String.length oe)
                     (st ++ oe) = st).
  { apply suffix_of_app; [exact Hst | |];
      destruct Hoe as [-> | ->]; simpl; (reflexivity || lia). }
  destruct Hsa as [Hsuf Hsubst].
  split; [exact Hw|]. split; [reflexivity|]. split; [|split].
  - rewrite Hstem. unfold stem, suffix. simpl. rewrite Hsuf. exact Hsubst.
  - unfold suffix. simpl. exact Hsuf.
  - rewrite Hstem. reflexivity.
Qed.

Section Tasks.

Context {W : Type} (os : OS W).

(** The if-chain of the loop body, by the answer of [classify]. *)
Lemma process_file_classify args dirpath filename :
  process_file os args dirpath filename =
  match classify (mkPath dirpath filename) with
  | Some (ft, oe) =>
      out_path <- with_suffix_ (mkPath dirpath filename) oe ;;
      convert_file os (mkPath dirpath filename) out_path ft
        (force args) (default_bitrate args)
  | None => ret tt
  end.
Proof.
  unfold process_file, classify.
  destruct (PyStr.mem _ IMAGE_EXTS); [reflexivity|].
  destruct (PyStr.mem _ VIDEO_EXTS); [reflexivity|].
  destruct (PyStr.mem _ AUDIO_EXTS); reflexivity.
Qed.

(** A classified file becomes exactly one call of [convert_file], on the
    path with the replaced suffix. *)
Lemma process_file_task args dirpath filename ft oe :
  classify (mkPath dirpath filename) = Some (ft, oe) ->
  exists out,
    with_suffix (mkPath dirpath filename) oe = Some out
    /\ (forall w, process_file os args dirpath filename w
                  = convert_file os (mkPath dirpath filename) out ft
                      (force args) (default_bitrate args) w)
    /\ parent out = dirpath
    /\ stem out = stem (mkPath dirpath filename)
    /\ suffix out = oe
    /\ name out = stem (mkPath dirpath filename) ++ oe.
Proof.
  intros Hc.
  assert (Hoe : oe = ".webp" \/ oe = ".webm").
  { destruct (classify_inv _ _ _ Hc) as (e & _ & [H | [H | H]]); tauto. }
  destruct (with_suffix_replaces _ oe (classify_has_suffix _ _ _ Hc) Hoe)
    as (out & Hw & Hp & Hst & Hsu & Hn).
  exists out. repeat split; try assumption.
  intros w. rewrite process_file_classify, Hc.
  unfold bind, with_suffix_. rewrite Hw. unfold ret. cbv iota beta.
  destruct (convert_file _ _ _ _ _ _ _) as [[r v] t]. reflexivity.
Qed.

Lemma process_file_ignored args dirpath filename w :
  classify (mkPath dirpath filename) = None ->
  process_file os args dirpath filename w = (Ret tt, w, []).
Proof. intros Hc. rewrite process_file_classify, Hc. reflexivity. Qed.

End Tasks.

(** C2.  Every discovered file is classified by looking its lower-cased
    extension up: the image extensions give class image and output
    extension .webp, the video extensions class video and .webm, the audio
    extensions class audio and .webm, any other extension gives no
    conversion task; the output path is the input path with only its
    extension replaced: same directory, same base name. *)
Theorem classification_by_extension :
  forall (W : Type) (os : OS W) (args : Args) (dirpath filename : string),
    let p := mkPath dirpath filename in
    let ext := PyStr.lower (suffix p) in
    let task ft oe :=
      exists out,
        (forall w, process_file os args dirpath filename w
                   = convert_file os p out ft (force args)
                       (default_bitrate args) w)
        /\ with_suffix p oe = Some out
        /\ parent out = dirpath
        /\ stem out = stem p
        /\ suffix out = oe in
    (forall e, In e image_names -> ext = "." ++ e -> task Image ".webp")
    /\ (forall e, In e video_names -> ext = "." ++ e -> task Video ".webm")
    /\ (forall e, In e audio_names -> ext = "." ++ e -> task Audio ".webm")
    /\ ((forall e, In e (image_names ++ video_names ++ audio_names) ->
                   ext <> "." ++ e) ->
        forall w, process_file os args dirpath filename w = (Ret tt, w, []))
    /\ classify (mkPath "/d" "photo.JPG") = Some (Image, ".webp").
Proof.
  intros W os args dirpath filename p ext task.
  assert (Htask : forall ft oe, classify p = Some (ft, oe) -> task ft oe).
  { intros ft oe Hc.
    destruct (process_file_task os args dirpath filename ft oe Hc)
      as (out & Hw & Hrun & Hp & Hst & Hsu & _).
    exists out. repeat split; assumption. }
  split; [|split; [|split; [|split]]].
  - intros e He Hx. apply Htask. exact (classify_image p e He Hx).
  - intros e He Hx. apply Htask. exact (classify_video p e He Hx).
  - intros e He Hx. apply Htask. exact (classify_audio p e He Hx).
  - intros Hno w. apply process_file_ignored. exact (classify_none p Hno).
  - reflexivity.
Qed.

Lemma classification_by_extension_witness :
  exists out,
    with_suffix (mkPath "/d" "clip.final.MKV") ".webm" = Some out
    /\ out = mkPath "/d" "clip.final.webm".
Proof.
  destruct (classification_by_extension _ (scenario_os (healthy []))
              (mkArgs "/d" false "128k") "/d" "clip.final.MKV")
    as (_ & Hv & _).
  destruct (Hv "mkv") as (out & _ & Hw & _).
  - simpl. tauto.
  - reflexivity.
  - exists out. split; [exact Hw|].
    vm_compute in Hw. congruence.
Defined.

(* ------------------------------------------------------------------ *)
(** ** The dispatcher *)
(* ------------------------------------------------------------------ *)

Section Dispatcher.

Context {W : Type} (os : OS W).

Lemma has_audio_stream_result p w b :
  result_of (has_audio_stream os p w) = Ret b ->
  has_audio_stream_spec (fst (spawn os (has_audio_cmd p) w)) = b.
Proof. rewrite has_audio_stream_run. intros [= H]. exact H. Qed.

(** The end of every branch: the announcement, the child process, and the
    error text when the status is not 0. *)
Ltac transcoder_ends cmd :=
  match goal with
  | |- context [spawn os cmd ?w] =>
      destruct (spawn os cmd w) as [[rc so err| | |urc] w3];
      [destruct rc|..]; reflexivity
  end.

Lemma exists_run p w :
  exists_returns os p w = true ->
  exists_ os p w = (Ret (path_exists os p w), w, []).
Proof.
  unfold exists_returns, exists_. intros H.
  destruct (path_exists os p w); [reflexivity|].
  destruct (exists_raises os p w); [discriminate | reflexivity].
Qed.

Lemma exists_returns_quiet p w :
  exists_raises os p w = false -> exists_returns os p w = true.
Proof. unfold exists_returns. intros ->. apply orb_true_r. Qed.

Lemma exists_returns_present p w :
  path_exists os p w = true -> exists_returns os p w = true.
Proof. unfold exists_returns. intros ->. reflexivity. Qed.

Lemma exists_fails p w :
  exists_returns os p w = false ->
  exists_ os p w = (Raise StatError, w, []).
Proof.
  unfold exists_returns, exists_. intros H.
  destruct (path_exists os p w); [discriminate|].
  destruct (exists_raises os p w); [reflexivity | discriminate].
Qed.

Ltac enter_task H Hst :=
  unfold convert_file, bind; rewrite (exists_run _ _ Hst);
  unfold print, try_except, subprocess_run, ret; cbv iota beta;
  rewrite H; cbv iota beta.

Lemma convert_file_skip inp out ft force dflt w :
  path_exists os out w && negb force = true ->
  convert_file os inp out ft force dflt w
  = (Ret tt, w, [EvPrint (MsgSkipExists out)]).
Proof.
  intros H.
  assert (Hst : exists_returns os out w = true).
  { unfold exists_returns. apply andb_true_iff in H as [-> _]. reflexivity. }
  enter_task H Hst. reflexivity.
Qed.

Lemma convert_file_stat_error inp out ft force dflt w :
  exists_returns os out w = false ->
  convert_file os inp out ft force dflt w = (Raise StatError, w, []).
Proof.
  intros H. unfold convert_file, bind. rewrite (exists_fails _ _ H).
  reflexivity.
Qed.

Lemma convert_file_image inp out force dflt w :
  path_exists os out w && negb force = false ->
  exists_returns os out w = true ->
  convert_file os inp out Image force dflt w =
  (conversion_result (fst (spawn os (image_cmd inp out) w)),
   snd (spawn os (image_cmd inp out) w),
   EvPrint (MsgConverting inp out) :: EvRun (image_cmd inp out)
     :: conversion_report inp (fst (spawn os (image_cmd inp out) w))).
Proof.
  intros H Hst. enter_task H Hst. fold (image_cmd inp out).
  transcoder_ends (image_cmd inp out).
Qed.

Lemma convert_file_video_audio inp out force dflt w :
  path_exists os out w && negb force = false ->
  exists_returns os out w = true ->
  result_of (has_audio_stream os inp w) = Ret true ->
  let w1 := world_of (has_audio_stream os inp w) in
  let br := probed_or_default (result_of (get_audio_bitrate os inp w1)) dflt in
  let w2 := world_of (get_audio_bitrate os inp w1) in
  let cmd := video_audio_cmd inp out br in
  convert_file os inp out Video force dflt w =
  (conversion_result (fst (spawn os cmd w2)),
   snd (spawn os cmd w2),
   [EvRun (has_audio_cmd inp); EvRun (bitrate_cmd inp);
    EvPrint (bitrate_notice Video (result_of (get_audio_bitrate os inp w1)) dflt);
    EvPrint (MsgConverting inp out); EvRun cmd]
   ++ conversion_report inp (fst (spawn os cmd w2)))%list.
Proof.
  intros H Hst Ha w1 br w2 cmd. subst cmd w2 br w1.
  apply has_audio_stream_result in Ha. enter_task H Hst.
  rewrite !has_audio_stream_run.
  unfold result_of, world_of. cbn [fst snd]. rewrite Ha. cbv iota beta.
  rewrite !get_audio_bitrate_run. cbn [fst snd]. cbv iota beta.
  destruct (probe_audio_bitrate_spec _) as [b|];
    cbn [probed_or_default bitrate_notice]; cbv iota beta;
    match goal with
    | |- context [EvPrint (MsgBitrateFound _ ?x)] =>
        fold (video_audio_cmd inp out x); transcoder_ends (video_audio_cmd inp out x)
    | |- context [EvPrint (MsgBitrateDefault _ ?x)] =>
        fold (video_audio_cmd inp out x); transcoder_ends (video_audio_cmd inp out x)
    end.
Qed.

Lemma convert_file_video_silent inp out force dflt w :
  path_exists os out w && negb force = false ->
  exists_returns os out w = true ->
  result_of (has_audio_stream os inp w) = Ret false ->
  let w1 := world_of (has_audio_stream os inp w) in
  let cmd := video_silent_cmd inp out in
  convert_file os inp out Video force dflt w =
  (conversion_result (fst (spawn os cmd w1)),
   snd (spawn os cmd w1),
   [EvRun (has_audio_cmd inp); EvPrint MsgVideoWithoutAudio;
    EvPrint (MsgConverting inp out); EvRun cmd]
   ++ conversion_report inp (fst (spawn os cmd w1)))%list.
Proof.
  intros H Hst Ha w1 cmd. subst cmd w1.
  apply has_audio_stream_result in Ha. enter_task H Hst.
  rewrite !has_audio_stream_run.
  unfold result_of, world_of. cbn [fst snd]. rewrite Ha. cbv iota beta.
  fold (video_silent_cmd inp out).
  transcoder_ends (video_silent_cmd inp out).
Qed.

Lemma convert_file_audio_missing inp out force dflt w :
  path_exists os out w && negb force = false ->
  exists_returns os out w = true ->
  result_of (has_audio_stream os inp w) = Ret false ->
  convert_file os inp out Audio force dflt w =
  (Ret tt, world_of (has_audio_stream os inp w),
   [EvRun (has_audio_cmd inp); EvPrint (MsgWarnNoAudioStream inp)]).
Proof.
  intros H Hst Ha. apply has_audio_stream_result in Ha. enter_task H Hst.
  rewrite !has_audio_stream_run.
  unfold result_of, world_of. cbn [fst snd]. rewrite Ha. reflexivity.
Qed.

Lemma convert_file_audio_present inp out force dflt w :
  path_exists os out w && negb force = false ->
  exists_returns os out w = true ->
  result_of (has_audio_stream os inp w) = Ret true ->
  let w1 := world_of (has_audio_stream os inp w) in
  let br := probed_or_default (result_of (get_audio_bitrate os inp w1)) dflt in
  let w2 := world_of (get_audio_bitrate os inp w1) in
  let cmd := audio_cmd inp out br in
  convert_file os inp out Audio force dflt w =
  (conversion_result (fst (spawn os cmd w2)),
   snd (spawn os cmd w2),
   [EvRun (has_audio_cmd inp); EvRun (bitrate_cmd inp);
    EvPrint (bitrate_notice Audio (result_of (get_audio_bitrate os inp w1)) dflt);
    EvPrint (MsgConverting inp out); EvRun cmd]
   ++ conversion_report inp (fst (spawn os cmd w2)))%list.
Proof.
  intros H Hst Ha w1 br w2 cmd. subst cmd w2 br w1.
  apply has_audio_stream_result in Ha. enter_task H Hst.
  rewrite !has_audio_stream_run.
  unfold result_of, world_of. cbn [fst snd]. rewrite Ha.
  cbn [negb]. cbv iota beta.
  rewrite !get_audio_bitrate_run. cbn [fst snd]. cbv iota beta.
  destruct (probe_audio_bitrate_spec _) as [b|];
    cbn [probed_or_default bitrate_notice]; cbv iota beta;
    match goal with
    | |- context [EvPrint (MsgBitrateFound _ ?x)] =>
        fold (audio_cmd inp out x); transcoder_ends (audio_cmd inp out x)
    | |- context [EvPrint (MsgBitrateDefault _ ?x)] =>
        fold (audio_cmd inp out x); transcoder_ends (audio_cmd inp out x)
    end.
Qed.

End Dispatcher.

Lemma transcoder_runs_report inp o : transcoder_runs (conversion_report inp o) = [].
Proof. destruct o as [rc so err| | |urc]; [destruct rc|..]; reflexivity. Qed.

Lemma reports_skip_report inp o :
  existsb reports_skip (conversion_report inp o) = false.
Proof. destruct o as [rc so err| | |urc]; [destruct rc|..]; reflexivity. Qed.

Lemma reports_skip_notice ft probed dflt :
  reports_skip (EvPrint (bitrate_notice ft probed dflt)) = false.
Proof. destruct probed as [[b|]| |]; reflexivity. Qed.

Lemma has_audio_stream_bool {W} (os : OS W) p w :
  result_of (has_audio_stream os p w) = Ret true
  \/ result_of (has_audio_stream os p w) = Ret false.
Proof.
  rewrite has_audio_stream_run. unfold result_of. simpl.
  destruct (has_audio_stream_spec _); tauto.
Qed.

(** C3.  For every video task that is not skipped, the destination having
    been looked up without an error: when the stream probe reports audio, the transcoder command is the lossless video encode with
    the audio re-encode branch [-c:a libopus -b:a <bitrate>], the bit rate
    being the probed one when the bit-rate probe gives one and the run's
    default otherwise; when the probe reports no audio, the command has
    [-an] in place of the audio branch and encodes video only. *)
Theorem video_task_command :
  forall (W : Type) (os : OS W) (inp out : Path) (force : bool)
         (dflt : string) (w : W),
    path_exists os out w && negb force = false ->
    exists_returns os out w = true ->
    let probe := has_audio_stream os inp w in
    let run := convert_file os inp out Video force dflt w in
    (result_of probe = Ret true ->
     transcoder_runs (trace_of run) =
     [["ffmpeg"; "-i"; path_str inp;
       "-c:v"; "libvpx-vp9"; "-lossless"; "1"; "-b:v"; "0";
       "-pix_fmt"; "yuva420p";
       "-c:a"; "libopus";
       "-b:a"; probed_or_default
                 (result_of (get_audio_bitrate os inp (world_of probe))) dflt;
       "-y"; path_str out]])
    /\ (result_of probe = Ret false ->
        transcoder_runs (trace_of run) =
        [["ffmpeg"; "-i"; path_str inp;
          "-c:v"; "libvpx-vp9"; "-lossless"; "1"; "-b:v"; "0";
          "-pix_fmt"; "yuva420p";
          "-an";
          "-y"; path_str out]])
    /\ (result_of probe = Ret true \/ result_of probe = Ret false).
Proof.
  intros W os inp out force dflt w Hgo Hst probe run. split; [|split].
  - intros Ha.
    pose proof (convert_file_video_audio os inp out force dflt w Hgo Hst Ha)
      as Hrun.
    unfold run. rewrite Hrun. unfold trace_of. cbn [snd app].
    cbn [transcoder_runs is_transcode has_audio_cmd bitrate_cmd
         video_audio_cmd String.eqb Ascii.eqb Bool.eqb andb].
    rewrite transcoder_runs_report. reflexivity.
  - intros Ha.
    pose proof (convert_file_video_silent os inp out force dflt w Hgo Hst Ha)
      as Hrun.
    unfold run. rewrite Hrun. unfold trace_of. cbn [snd app].
    cbn [transcoder_runs is_transcode has_audio_cmd
         video_silent_cmd String.eqb Ascii.eqb Bool.eqb andb].
    rewrite transcoder_runs_report. reflexivity.
  - apply has_audio_stream_bool.
Qed.

Lemma video_task_command_witness :
  transcoder_runs
    (trace_of (convert_file (scenario_os unknown_bitrate) clip clip_out
                 Video false "96k" []))
  = [["ffmpeg"; "-i"; "/films/clip.mp4";
      "-c:v"; "libvpx-vp9"; "-lossless"; "1"; "-b:v"; "0";
      "-pix_fmt"; "yuva420p"; "-c:a"; "libopus"; "-b:a"; "96k";
      "-y"; "/films/clip.webm"]].
Proof.
  destruct (video_task_command _ (scenario_os unknown_bitrate) clip clip_out
              false "96k" [] eq_refl eq_refl) as [H _].
  exact (H eq_refl).
Defined.

(** C5.  For every audio task that is not skipped, the destination having
    been looked up without an error: when the stream probe reports no audio
    stream, the dispatcher prints a warning, starts no
    transcoder, and returns without raising, with a failed/skipped outcome;
    otherwise the transcoder command re-encodes audio only,
    [-c:a libopus -b:a <bitrate>], with the probed bit rate when there is
    one and the default bit rate otherwise. *)
Theorem audio_task_command :
  forall (W : Type) (os : OS W) (inp out : Path) (force : bool)
         (dflt : string) (w : W),
    path_exists os out w && negb force = false ->
    exists_returns os out w = true ->
    let probe := has_audio_stream os inp w in
    let run := convert_file os inp out Audio force dflt w in
    (result_of probe = Ret false ->
     run = (Ret tt, world_of probe,
            [EvRun (has_audio_cmd inp); EvPrint (MsgWarnNoAudioStream inp)])
     /\ transcoder_runs (trace_of run) = []
     /\ outcome_of (trace_of run) = FailedOrSkipped)
    /\ (result_of probe = Ret true ->
        transcoder_runs (trace_of run) =
        [["ffmpeg"; "-i"; path_str inp;
          "-c:a"; "libopus";
          "-b:a"; probed_or_default
                    (result_of (get_audio_bitrate os inp (world_of probe)))
                    dflt;
          "-y"; path_str out]])
    /\ (result_of probe = Ret true \/ result_of probe = Ret false).
Proof.
  intros W os inp out force dflt w Hgo Hst probe run. split; [|split].
  - intros Ha.
    pose proof (convert_file_audio_missing os inp out force dflt w Hgo Hst Ha)
      as Hrun.
    unfold run. rewrite Hrun. repeat split.
  - intros Ha.
    pose proof (convert_file_audio_present os inp out force dflt w Hgo Hst Ha)
      as Hrun.
    unfold run. rewrite Hrun. unfold trace_of. cbn [snd app].
    cbn [transcoder_runs is_transcode has_audio_cmd bitrate_cmd
         audio_cmd String.eqb Ascii.eqb Bool.eqb andb].
    rewrite transcoder_runs_report. reflexivity.
  - apply has_audio_stream_bool.
Qed.

Lemma audio_task_command_witness :
  convert_file (scenario_os no_streams) song song_out Audio false "128k" []
  = (Ret tt, [],
     [EvRun (has_audio_cmd song); EvPrint (MsgWarnNoAudioStream song)]).
Proof.
  destruct (audio_task_command _ (scenario_os no_streams) song song_out
              false "128k" [] eq_refl eq_refl) as [H _].
  exact (proj1 (H eq_refl)).
Defined.

(** C4, as amended.  For every task whose destination exists: with the
    force flag false the dispatcher starts no child process at all, neither
    a probe nor the transcoder, prints the skip notice, leaves the system
    as it was, and the outcome is skipped-exists; with the force flag true
    the task is handled as if the destination were absent: an image task,
    a video task, and an audio task whose source has an audio stream start
    the transcoder once, on the source, with the overwrite option [-y] and
    the destination as its last arguments; an audio task whose source has
    no audio stream starts no transcoder. *)
Theorem existing_destination :
  forall (W : Type) (os : OS W) (inp out : Path) (ft : file_type)
         (force : bool) (dflt : string) (w : W),
    path_exists os out w = true ->
    let run := convert_file os inp out ft force dflt w in
    (force = false ->
     run = (Ret tt, w, [EvPrint (MsgSkipExists out)])
     /\ invocations (trace_of run) = []
     /\ outcome_of (trace_of run) = SkippedExists)
    /\ (force = true ->
        (ft = Audio -> result_of (has_audio_stream os inp w) = Ret true) ->
        existsb reports_skip (trace_of run) = false
        /\ exists opts,
            transcoder_runs (trace_of run) =
            [("ffmpeg" :: "-i" :: path_str inp :: opts
              ++ ["-y"; path_str out])%list])
    /\ (force = true -> ft = Audio ->
        result_of (has_audio_stream os inp w) = Ret false ->
        transcoder_runs (trace_of run) = []).
Proof.
  intros W os inp out ft force dflt w Hex run. split; [|split].
  - intros ->. unfold run.
    rewrite convert_file_skip by (rewrite Hex; reflexivity).
    repeat split.
  - intros -> Haudio.
    assert (Hgo : path_exists os out w && negb true = false)
      by (rewrite Hex; reflexivity).
    pose proof (exists_returns_present os out w Hex) as Hst.
    unfold run. destruct ft.
    + rewrite (convert_file_image os inp out true dflt w Hgo Hst).
      unfold trace_of. cbn [snd].
      cbn [existsb reports_skip transcoder_runs is_transcode image_cmd
           String.eqb Ascii.eqb Bool.eqb andb orb].
      rewrite reports_skip_report, transcoder_runs_report. split; [reflexivity|].
      eexists
        ["-c:v"; "libwebp"; "-lossless"; "1"; "-compression_level"; "6";
         "-loop"; "0"; "-an"].
      reflexivity.
    + destruct (has_audio_stream_bool os inp w) as [Ha | Ha].
      * pose proof (convert_file_video_audio os inp out true dflt w Hgo Hst Ha)
          as Hrun.
        rewrite Hrun. unfold trace_of. cbn [snd app].
        split.
        { cbn [existsb]. rewrite reports_skip_notice, reports_skip_report.
          reflexivity. }
        cbn [transcoder_runs is_transcode has_audio_cmd
             bitrate_cmd video_audio_cmd String.eqb Ascii.eqb Bool.eqb andb].
        rewrite transcoder_runs_report.
        eexists
          ["-c:v"; "libvpx-vp9"; "-lossless"; "1"; "-b:v"; "0";
           "-pix_fmt"; "yuva420p"; "-c:a"; "libopus"; "-b:a"; _].
        reflexivity.
      * rewrite (convert_file_video_silent os inp out true dflt w Hgo Hst Ha).
        unfold trace_of. cbn [snd app].
        cbn [existsb reports_skip transcoder_runs is_transcode has_audio_cmd
             video_silent_cmd String.eqb Ascii.eqb Bool.eqb andb orb].
        rewrite reports_skip_report, transcoder_runs_report.
        split; [reflexivity|].
        eexists
          ["-c:v"; "libvpx-vp9"; "-lossless"; "1"; "-b:v"; "0";
           "-pix_fmt"; "yuva420p"; "-an"].
        reflexivity.
    + specialize (Haudio eq_refl).
      pose proof (convert_file_audio_present os inp out true dflt w Hgo Hst Haudio)
        as Hrun.
      rewrite Hrun. unfold trace_of. cbn [snd app].
      split.
      { cbn [existsb]. rewrite reports_skip_notice, reports_skip_report.
        reflexivity. }
      cbn [transcoder_runs is_transcode has_audio_cmd
           bitrate_cmd audio_cmd String.eqb Ascii.eqb Bool.eqb andb].
      rewrite transcoder_runs_report.
      eexists ["-c:a"; "libopus"; "-b:a"; _].
      reflexivity.
  - intros -> -> Ha. unfold run.
    rewrite (convert_file_audio_missing os inp out true dflt w);
      [reflexivity | rewrite Hex; reflexivity
       | apply exists_returns_present; exact Hex | exact Ha].
Qed.

Lemma existing_destination_witness :
  convert_file (scenario_os (healthy [])) clip clip_out Video false "128k"
    [path_str clip_out]
  = (Ret tt, [path_str clip_out], [EvPrint (MsgSkipExists clip_out)]).
Proof.
  destruct (existing_destination _ (scenario_os (healthy [])) clip clip_out
              Video false "128k" [path_str clip_out] eq_refl) as [H _].
  exact (proj1 (H eq_refl)).
Defined.

(** C4 as stated fails for an audio task whose source has no audio stream:
    the destination exists, the force flag is true, and still no transcoder
    is started. *)
Lemma forced_audio_without_stream_counterexample :
  let os := scenario_os no_streams in
  let w := [path_str song_out] in
  let run := convert_file os song song_out Audio true "128k" w in
  path_exists os song_out w = true
  /\ run = (Ret tt, w,
            [EvRun (has_audio_cmd song); EvPrint (MsgWarnNoAudioStream song)])
  /\ transcoder_runs (trace_of run) = [].
Proof. repeat split. Qed.

(* ------------------------------------------------------------------ *)
(** ** Sources that already are WebP *)
(* ------------------------------------------------------------------ *)

Lemma with_suffix_same p oe :
  suffix p = oe -> oe = ".webp" \/ oe = ".webm" -> with_suffix p oe = Some p.
Proof.
  intros Hs Hoe.
  assert (Hne : suffix p <> "") by (rewrite Hs; destruct Hoe as [-> | ->]; discriminate).
  destruct (with_suffix_replaces p oe Hne Hoe)
    as (out & Hw & Hp & _ & _ & Hn).
  rewrite Hw. f_equal. destruct out as [d n], p as [d' n']. simpl in *.
  subst d. f_equal. rewrite Hn.
  unfold suffix in Hne. simpl in Hne.
  destruct (suffix_of_split _ Hne) as (st & Hnm & _ & Hsub).
  unfold stem, suffix. simpl. rewrite <- Hsub.
  unfold suffix in Hs. simpl in Hs. rewrite Hs in Hnm. congruence.
Qed.

(** C9, as amended.  For every input file whose lower-cased extension is
    [.webp], the file is an image task whose destination is the source
    with the suffix [.webp]; that destination is the source path itself
    exactly when the extension is [.webp] in lower case.  In that case the
    file is reported skipped-exists whenever the force flag is false and
    the source path exists, and with the force flag true, the look-up of
    the path having ended without an error, the transcoder is started with
    the same path as input and as output. *)
Theorem webp_source_is_its_own_destination :
  forall (W : Type) (os : OS W) (args : Args) (dirpath filename : string)
         (w : W),
    PyStr.lower (suffix (mkPath dirpath filename)) = ".webp" ->
    let p := mkPath dirpath filename in
    let run := process_file os args dirpath filename w in
    exists out,
      with_suffix p ".webp" = Some out
      /\ run = convert_file os p out Image (force args) (default_bitrate args) w
      /\ (out = p <-> suffix p = ".webp")
      /\ (suffix p = ".webp" -> path_exists os p w = true ->
          force args = false ->
          run = (Ret tt, w, [EvPrint (MsgSkipExists p)]))
      /\ (suffix p = ".webp" -> force args = true ->
          exists_returns os p w = true ->
          transcoder_runs (trace_of run) =
          [["ffmpeg"; "-i"; path_str p;
            "-c:v"; "libwebp"; "-lossless"; "1"; "-compression_level"; "6";
            "-loop"; "0"; "-an";
            "-y"; path_str p]]).
Proof.
  intros W os args dirpath filename w Hext p run.
  assert (Hc : classify p = Some (Image, ".webp"))
    by (apply (classify_image p "webp"); [simpl; tauto | exact Hext]).
  destruct (process_file_task os args dirpath filename Image ".webp" Hc)
    as (out & Hw & Hrun & _ & _ & Hsuf & _).
  fold p in Hw. exists out.
  assert (Hiff : out = p <-> suffix p = ".webp").
  { split.
    - intros <-. exact Hsuf.
    - intros Hs.
      assert (Hp : with_suffix p ".webp" = Some p)
        by (apply with_suffix_same; [exact Hs | tauto]).
      congruence. }
  split; [exact Hw|]. split; [apply Hrun|]. split; [exact Hiff|]. split.
  - intros Hs Hex Hf. apply Hiff in Hs. subst out.
    unfold run. rewrite Hrun. apply convert_file_skip.
    rewrite Hex, Hf. reflexivity.
  - intros Hs Hf Hst. apply Hiff in Hs. subst out.
    unfold run. rewrite Hrun, Hf.
    rewrite convert_file_image
      by (try exact Hst; destruct (path_exists os p w); reflexivity).
    unfold trace_of. cbn [snd].
    cbn [transcoder_runs is_transcode image_cmd String.eqb Ascii.eqb
         Bool.eqb andb].
    rewrite transcoder_runs_report. reflexivity.
Qed.

Lemma webp_source_is_its_own_destination_witness :
  process_file (scenario_os (healthy [])) (mkArgs "/pics" false "128k")
    "/pics" "LOGO.webp" [path_str logo_lower]
  = (Ret tt, [path_str logo_lower], [EvPrint (MsgSkipExists logo_lower)]).
Proof.
  destruct (webp_source_is_its_own_destination _ (scenario_os (healthy []))
              (mkArgs "/pics" false "128k") "/pics" "LOGO.webp"
              [path_str logo_lower] eq_refl) as (out & _ & _ & _ & H & _).
  exact (H eq_refl eq_refl eq_refl).
Defined.

(** C9 as stated fails for an extension in upper case: LOGO.WEBP is
    classified as an image, its destination is LOGO.webp, another path;
    with the force flag false and only the source present it is converted,
    not skipped. *)
Lemma uppercase_webp_counterexample :
  let os := scenario_os (healthy []) in
  let args := mkArgs "/pics" false "128k" in
  PyStr.lower (suffix logo_upper) = ".webp"
  /\ classify logo_upper = Some (Image, ".webp")
  /\ with_suffix logo_upper ".webp" = Some logo_lower
  /\ logo_lower <> logo_upper
  /\ process_file os args "/pics" "LOGO.WEBP" [path_str logo_upper]
     = (Ret tt, [path_str logo_lower; path_str logo_upper],
        [EvPrint (MsgConverting logo_upper logo_lower);
         EvRun (image_cmd logo_upper logo_lower)]).
Proof. repeat split. discriminate. Qed.

(* ------------------------------------------------------------------ *)
(** ** Sequencing and loops *)
(* ------------------------------------------------------------------ *)

Section Sequencing.

Context {W : Type}.

Lemma bind_run {A B} (m : M W A) (k : A -> M W B) w :
  bind m k w =
  match result_of (m w) with
  | Ret a =>
      (result_of (k a (world_of (m w))),
       world_of (k a (world_of (m w))),
       (trace_of (m w) ++ trace_of (k a (world_of (m w))))%list)
  | Raise e => (Raise e, world_of (m w), trace_of (m w))
  | SysExit c => (SysExit c, world_of (m w), trace_of (m w))
  end.
Proof.
  unfold bind, result_of, world_of, trace_of.
  destruct (m w) as [[r w1] t1]. destruct r as [a| |]; simpl; try reflexivity.
  destruct (k a w1) as [[r2 w2] t2]. reflexivity.
Qed.



(** A property of the events of every body is a property of the loop. *)
Lemma for_each_events {A} (P : event -> Prop) (body : A -> M W unit) xs :
  (forall x w, In x xs -> Forall P (trace_of (body x w))) ->
  forall w, Forall P (trace_of (for_each body xs w)).
Proof.
  induction xs as [|x rest IH]; intros Hb w; simpl; [constructor|].
  rewrite bind_run.
  pose proof (Hb x w (or_introl eq_refl)) as Hx.
  destruct (result_of (body x w)); unfold trace_of at 1; cbn [snd];
    try exact Hx.
  apply Forall_app. split; [exact Hx|].
  apply IH. intros y w' Hy. apply Hb. right. exact Hy.
Qed.

End Sequencing.

(* ------------------------------------------------------------------ *)
(** ** One task from start to end *)
(* ------------------------------------------------------------------ *)

Section WholeTask.

Context {W : Type} (os : OS W).


Lemma report_events inp out o :
  Forall (task_event inp out) (conversion_report inp o).
Proof.
  destruct o as [rc so err| | |urc]; [destruct rc|..]; simpl;
    repeat constructor.
Qed.

Ltac task_events :=
  unfold trace_of; cbn [snd];
  repeat match goal with
         | |- Forall _ (_ ++ _)%list => apply Forall_app; split
         | |- Forall _ (conversion_report _ _) => apply report_events
         | |- Forall _ (_ :: _) => constructor
         | |- Forall _ [] => constructor
         | |- task_event _ _ (EvPrint _) => exact I
         | |- task_event _ _ (EvRun _) =>
             unfold task_event, task_command; eauto 12
         end.

(** [convert_file] starts nothing but the commands of its own task. *)
Lemma convert_file_events inp out ft force dflt w :
  Forall (task_event inp out)
    (trace_of (convert_file os inp out ft force dflt w)).
Proof.
  destruct (exists_returns os out w) eqn:Hst;
    [|rewrite convert_file_stat_error by exact Hst; constructor].
  destruct (path_exists os out w && negb force) eqn:Hgo.
  - rewrite convert_file_skip by exact Hgo. task_events.
  - destruct ft.
    + rewrite convert_file_image by assumption. task_events.
    + destruct (has_audio_stream_bool os inp w) as [Ha | Ha].
      * rewrite (convert_file_video_audio os inp out force dflt w Hgo Hst Ha).
        task_events.
      * rewrite (convert_file_video_silent os inp out force dflt w Hgo Hst Ha).
        task_events.
    + destruct (has_audio_stream_bool os inp w) as [Ha | Ha].
      * rewrite (convert_file_audio_present os inp out force dflt w Hgo Hst Ha).
        task_events.
      * rewrite (convert_file_audio_missing os inp out force dflt w Hgo Hst Ha).
        task_events.
Qed.



Lemma process_file_events args tree dirpath filenames filename w :
  In (dirpath, filenames) tree -> In filename filenames ->
  Forall (file_event tree)
    (trace_of (process_file os args dirpath filename w)).
Proof.
  intros Hd Hf.
  destruct (classify (mkPath dirpath filename)) as [[ft oe]|] eqn:Hc.
  - destruct (process_file_task os args dirpath filename ft oe Hc)
      as (out & Hw & Hrun & _).
    rewrite Hrun.
    eapply Forall_impl; [|apply convert_file_events].
    intros e He. exists dirpath, filenames, filename, ft, oe, out.
    repeat split; assumption.
  - rewrite process_file_ignored by exact Hc. constructor.
Qed.

(** The two nested loops of [main] over what [os.walk] yields. *)
Lemma walk_loop_events args tree w :
  Forall (file_event tree)
    (trace_of
       (for_each
          (fun entry => for_each (process_file os args (fst entry)) (snd entry))
          tree w)).
Proof.
  apply for_each_events. intros [d fs] w1 Hd. simpl.
  apply for_each_events. intros f w2 Hf.
  exact (process_file_events args tree d fs f w2 Hd Hf).
Qed.


End WholeTask.

(* ------------------------------------------------------------------ *)
(** ** The whole run *)
(* ------------------------------------------------------------------ *)

Section WholeRun.

Context {W : Type} (os : OS W).

(** The dependency check: the transcoder's version query, then the
    prober's, each once; the first one that is missing or exits non-zero
    ends the run with status 1. *)
Lemma check_ffmpeg_run w :
  let o1 := fst (spawn os ffmpeg_version_cmd w) in
  let w1 := snd (spawn os ffmpeg_version_cmd w) in
  let o2 := fst (spawn os ffprobe_version_cmd w1) in
  let w2 := snd (spawn os ffprobe_version_cmd w1) in
  check_ffmpeg os w =
  if answers o1 then
    if answers o2 then
      (Ret tt, w2, [EvRun ffmpeg_version_cmd; EvRun ffprobe_version_cmd])
    else if unusable o2 then
      (SysExit 1, w2,
       [EvRun ffmpeg_version_cmd; EvRun ffprobe_version_cmd;
        EvPrint MsgToolMissing])
    else
      (Raise OtherError, w2,
       [EvRun ffmpeg_version_cmd; EvRun ffprobe_version_cmd])
  else if unusable o1 then
    (SysExit 1, w1, [EvRun ffmpeg_version_cmd; EvPrint MsgToolMissing])
  else
    (Raise OtherError, w1, [EvRun ffmpeg_version_cmd]).
Proof.
  intros o1 w1 o2 w2. subst o1 w1 o2 w2.
  unfold check_ffmpeg, try_except, bind, subprocess_run_bytes, print,
    sys_exit, ret.
  fold ffmpeg_version_cmd. fold ffprobe_version_cmd.
  destruct (spawn os ffmpeg_version_cmd w) as [[rc so err| | |urc] v1];
    [destruct rc| | |destruct urc]; cbn [fst snd answers unusable];
    try reflexivity;
    destruct (spawn os ffprobe_version_cmd v1) as [[rc so' err'| | |urc'] v2];
    [destruct rc| | |destruct urc'| destruct rc| | |destruct urc'];
    reflexivity.
Qed.

(** [main] after a dependency check that passed. *)
Lemma main_after_check args w :
  result_of (check_ffmpeg os w) = Ret tt ->
  let w1 := world_of (check_ffmpeg os w) in
  let root := resolve os (input_dir args) w1 in
  let loop :=
    for_each
      (fun entry => for_each (process_file os args (fst entry)) (snd entry))
      (os_walk os root w1) w1 in
  main os args w =
  if is_dir os root w1 then
    (result_of loop, world_of loop,
     (trace_of (check_ffmpeg os w) ++ EvWalk root :: trace_of loop)%list)
  else
    (SysExit 1, w1,
     (trace_of (check_ffmpeg os w) ++ [EvPrint (MsgNotADirectory root)])%list).
Proof.
  intros Hok w1 root loop. subst loop root w1.
  unfold main, bind, walk, print, sys_exit.
  destruct (check_ffmpeg os w) as [[r v] t].
  unfold result_of, world_of, trace_of in *. cbn [fst snd] in *.
  subst r. cbv iota beta.
  destruct (is_dir os _ _); cbn [negb]; cbv iota beta.
  - destruct (for_each _ _ _) as [[r v'] t']. reflexivity.
  - reflexivity.
Qed.

(** [main] after a dependency check that did not pass. *)
Lemma main_check_failed args w :
  result_of (check_ffmpeg os w) <> Ret tt ->
  main os args w = check_ffmpeg os w.
Proof.
  intros Hko. unfold main. rewrite bind_run.
  destruct (check_ffmpeg os w) as [[r v] t]. unfold result_of in *.
  simpl in *. destruct r as [[]| |]; [congruence|reflexivity..].
Qed.

End WholeRun.


Lemma reports_failure_notice ft probed dflt :
  reports_failure (EvPrint (bitrate_notice ft probed dflt)) = false.
Proof. destruct probed as [[b|]| |]; reflexivity. Qed.


(** A task that is not skipped and has a transcoder command starts it as
    its last child process, after events that start no transcoder and
    report nothing; what follows is the report of that run, and the task
    ends as that run does. *)
Lemma convert_file_started {W} (os : OS W) inp out ft force dflt w cmd w' :
  path_exists os out w && negb force = false ->
  exists_returns os out w = true ->
  transcoder_start os inp out ft dflt w = Some (cmd, w') ->
  is_transcode cmd = true
  /\ exists pre,
       convert_file os inp out ft force dflt w
       = (conversion_result (fst (spawn os cmd w')),
          snd (spawn os cmd w'),
          (pre ++ EvRun cmd
             :: conversion_report inp (fst (spawn os cmd w')))%list)
       /\ transcoder_runs pre = []
       /\ existsb reports_skip pre = false
       /\ existsb reports_failure pre = false.
Proof.
  intros Hgo Hst Hstart. unfold transcoder_start in Hstart.
  destruct ft.
  - injection Hstart as <- <-. split; [reflexivity|].
    exists [EvPrint (MsgConverting inp out)].
    rewrite convert_file_image by assumption. repeat split.
  - destruct (has_audio_stream_bool os inp w) as [Ha | Ha];
      rewrite Ha in Hstart; injection Hstart as <- <-;
      (split; [reflexivity|]).
    + rewrite (convert_file_video_audio os inp out force dflt w Hgo Hst Ha).
      eexists [_; _; _; _]. split; [reflexivity|].
      cbn [existsb].
      rewrite reports_skip_notice, reports_failure_notice. repeat split.
    + rewrite (convert_file_video_silent os inp out force dflt w Hgo Hst Ha).
      eexists [_; _; _]. repeat split.
  - destruct (has_audio_stream_bool os inp w) as [Ha | Ha];
      rewrite Ha in Hstart; [|discriminate].
    injection Hstart as <- <-. split; [reflexivity|].
    rewrite (convert_file_audio_present os inp out force dflt w Hgo Hst Ha).
    eexists [_; _; _; _]. split; [reflexivity|].
    cbn [existsb].
    rewrite reports_skip_notice, reports_failure_notice. repeat split.
Qed.







(** The run of that scenario: the first picture fails, its error text is
    printed, the second picture is converted, the exit code is 0. *)
Example first_fails_run :
  run_main first_fails (mkArgs "/in" false "128k") []
  = (0%Z,
     [EvRun ffmpeg_version_cmd; EvRun ffprobe_version_cmd; EvWalk "/in";
      EvPrint (MsgConverting (mkPath "/in" "a.png") (mkPath "/in" "a.webp"));
      EvRun (image_cmd (mkPath "/in" "a.png") (mkPath "/in" "a.webp"));
      EvPrint (MsgConvertError (mkPath "/in" "a.png") "Invalid data found");
      EvPrint (MsgConverting (mkPath "/in" "b.png") (mkPath "/in" "b.webp"));
      EvRun (image_cmd (mkPath "/in" "b.png") (mkPath "/in" "b.webp"))]).
Proof. reflexivity. Qed.

(* ------------------------------------------------------------------ *)
(** ** The dependency check in a whole run *)
(* ------------------------------------------------------------------ *)

Lemma times_started_app cmd a b :
  times_started cmd (a ++ b)
  = times_started cmd a + times_started cmd b.
Proof.
  unfold times_started.
  assert (Hinv : invocations (a ++ b) = (invocations a ++ invocations b)%list).
  { induction a as [|e a IH]; simpl; [reflexivity|].
    destruct e; simpl; rewrite IH; reflexivity. }
  rewrite Hinv, filter_app, length_app. reflexivity.
Qed.

(** No command of a file's task is a version query. *)
Lemma task_command_not_version inp out cmd :
  task_command inp out cmd ->
  cmd_eqb ffmpeg_version_cmd cmd = false
  /\ cmd_eqb ffprobe_version_cmd cmd = false.
Proof.
  intros [-> | [-> | [-> | [[br ->] | [-> | [br ->]]]]]]; split; reflexivity.
Qed.

Lemma file_events_no_version tree t :
  Forall (file_event tree) t ->
  times_started ffmpeg_version_cmd t = 0
  /\ times_started ffprobe_version_cmd t = 0.
Proof.
  induction 1 as [|e t He _ IH]; [split; reflexivity|].
  destruct He as (d & fs & f & ft & oe & out & _ & _ & _ & _ & He).
  destruct e as [cmd|m|root]; simpl in He; try contradiction; try exact IH.
  destruct (task_command_not_version _ _ _ He) as [H1 H2].
  destruct IH as [IH1 IH2].
  unfold times_started in *. cbn [invocations filter].
  rewrite H1, H2. split; assumption.
Qed.

Lemma trace_of_triple {W A} (r : result A) (w : W) (t : list event) :
  trace_of (r, w, t) = t.
Proof. reflexivity. Qed.

Lemma unusable_not_answers o : unusable o = true -> answers o = false.
Proof.
  destruct o as [rc so err| | |urc]; [destruct rc| | |destruct urc]; simpl;
    congruence.
Qed.

(** C8, as amended.  In a run whose command line was accepted: when the
    transcoder is missing or its version query exits non-zero, or when that query ends with status 0 and the prober is
    missing or its version query exits non-zero, the run prints the
    diagnostic and ends with a non-zero exit code before the tree is walked
    and before any file is converted: the whole run is the dependency
    check.  When the transcoder cannot be started for another reason, the
    run ends with that error after the one query, without a diagnostic,
    whatever the state of the prober.  In every run the check comes first
    and is made once: the transcoder's version query is started exactly
    once, the prober's at most once, and neither is repeated. *)
Theorem missing_tool_stops_the_run :
  forall (W : Type) (os : OS W) (args : Args) (w : W),
    let o1 := fst (spawn os ffmpeg_version_cmd w) in
    let w1 := snd (spawn os ffmpeg_version_cmd w) in
    let o2 := fst (spawn os ffprobe_version_cmd w1) in
    let run := main os args w in
    (unusable o1 = true \/ (answers o1 = true /\ unusable o2 = true) ->
     run = check_ffmpeg os w
     /\ exit_status (result_of run) = 1%Z
     /\ (trace_of run = [EvRun ffmpeg_version_cmd; EvPrint MsgToolMissing]
         \/ trace_of run = [EvRun ffmpeg_version_cmd;
                            EvRun ffprobe_version_cmd;
                            EvPrint MsgToolMissing])
     /\ (forall root, ~ In (EvWalk root) (trace_of run))
     /\ transcoder_runs (trace_of run) = [])
    /\ (o1 = Failed ->
        run = (Raise OtherError, w1, [EvRun ffmpeg_version_cmd]))
    /\ (exists rest, trace_of run = EvRun ffmpeg_version_cmd :: rest)
    /\ times_started ffmpeg_version_cmd (trace_of run) = 1
    /\ times_started ffprobe_version_cmd (trace_of run) <= 1.
Proof.
  intros W os args w o1 w1 o2 run.
  pose proof (check_ffmpeg_run os w) as Hc. cbv zeta in Hc.
  fold o1 in Hc. fold w1 in Hc. fold o2 in Hc.
  destruct (answers o1) eqn:U1; [destruct (answers o2) eqn:U2|].
  - (* both tools answer: the check passes *)
    assert (Hok : result_of (check_ffmpeg os w) = Ret tt)
      by (rewrite Hc; reflexivity).
    assert (Ht : trace_of (check_ffmpeg os w)
                 = [EvRun ffmpeg_version_cmd; EvRun ffprobe_version_cmd])
      by (rewrite Hc; reflexivity).
    pose proof (main_after_check os args w Hok) as Hmain. cbv zeta in Hmain.
    fold run in Hmain. rewrite Ht in Hmain. clear Hc.
    set (wc := world_of (check_ffmpeg os w)) in *.
    set (root := resolve os (input_dir args) wc) in *.
    pose proof (walk_loop_events os args (os_walk os root wc) wc) as Hloop.
    set (loop := for_each _ (os_walk os root wc) wc) in *.
    split.
    { intros [H | [_ H]].
      - apply unusable_not_answers in H. congruence.
      - apply unusable_not_answers in H. congruence. }
    split.
    { intros H. rewrite H in U1. discriminate. }
    destruct (file_events_no_version _ _ Hloop) as [H1 H2].
    destruct (is_dir os root wc); rewrite Hmain, !trace_of_triple;
      cbn [app]; (split; [eexists; reflexivity|]).
    + change (?a :: ?b :: ?c :: trace_of loop)
        with ([a; b; c] ++ trace_of loop)%list.
      rewrite !times_started_app, H1, H2. split; [reflexivity|].
      unfold times_started. simpl. lia.
    + split; [reflexivity|]. unfold times_started. simpl. lia.
  - (* the prober does not answer *)
    assert (Hmain : run = check_ffmpeg os w).
    { apply main_check_failed. rewrite Hc.
      destruct (unusable o2); discriminate. }
    rewrite Hmain, Hc. split; [|split].
    + intros [H | [_ H]].
      * apply unusable_not_answers in H. congruence.
      * rewrite H. unfold exit_status, result_of, trace_of. cbn [fst snd].
        split; [reflexivity|]. split; [reflexivity|].
        split; [right; reflexivity|].
        split; [|reflexivity].
        intros root [H' | [H' | [H' | []]]]; discriminate.
    + intros H. rewrite H in U1. discriminate.
    + destruct (unusable o2); unfold trace_of; cbn [snd];
        (split; [eexists; reflexivity|]);
        unfold times_started; simpl; lia.
  - (* the transcoder does not answer *)
    assert (Hmain : run = check_ffmpeg os w).
    { apply main_check_failed. rewrite Hc.
      destruct (unusable o1); discriminate. }
    rewrite Hmain, Hc. split; [|split].
    + intros [H | [H _]]; [|congruence].
      rewrite H. unfold exit_status, result_of, trace_of. cbn [fst snd].
      split; [reflexivity|]. split; [reflexivity|].
      split; [left; reflexivity|].
      split; [|reflexivity].
      intros root [H' | [H' | []]]; discriminate.
    + intros H. rewrite H. reflexivity.
    + destruct (unusable o1); unfold trace_of; cbn [snd];
        (split; [eexists; reflexivity|]);
        unfold times_started; simpl; lia.
Qed.

Lemma missing_tool_stops_the_run_witness :
  run_main no_ffprobe (mkArgs "/in" false "128k") []
  = (1%Z,
     [EvRun ffmpeg_version_cmd; EvRun ffprobe_version_cmd;
      EvPrint MsgToolMissing]).
Proof.
  destruct (missing_tool_stops_the_run _ (scenario_os no_ffprobe)
              (mkArgs "/in" false "128k") []) as [H _].
  destruct (H (or_intror (conj eq_refl eq_refl))) as (_ & Hcode & _).
  unfold run_main. rewrite Hcode. reflexivity.
Defined.

(** C8 as stated fails when the transcoder is installed without the right
    to execute it and the prober is missing: a required tool is missing,
    and the run ends with the [PermissionError] of the first query; no
    diagnostic is printed. *)
Lemma transcoder_not_executable_counterexample :
  let os := scenario_os ffmpeg_not_executable in
  fst (spawn os ffmpeg_version_cmd []) = Failed
  /\ fst (spawn os ffprobe_version_cmd []) = NotFound
  /\ main os (mkArgs "/in" false "128k") []
     = (Raise OtherError, [], [EvRun ffmpeg_version_cmd]).
Proof. repeat split. Qed.

(* ------------------------------------------------------------------ *)
(** ** WebM files in the tree *)
(* ------------------------------------------------------------------ *)

Lemma classify_webm p :
  PyStr.lower (suffix p) = ".webm" -> classify p = None.
Proof. intros H. unfold classify. rewrite H. reflexivity. Qed.

Lemma in_invocations cmd t : In cmd (invocations t) <-> In (EvRun cmd) t.
Proof.
  induction t as [|e t IH]; simpl; [tauto|].
  destruct e as [c|m|r]; simpl; rewrite IH.
  - split; intros [H | H];
      [left; congruence | right; exact H | left; congruence | right; exact H].
  - split; [intros H; right; exact H | intros [H | H]; [discriminate | exact H]].
  - split; [intros H; right; exact H | intros [H | H]; [discriminate | exact H]].
Qed.

(** Every child process of a run is a version query or belongs to the task
    of a classified file of the tree. *)
Lemma main_invocations {W} (os : OS W) args w :
  let wc := world_of (check_ffmpeg os w) in
  let root := resolve os (input_dir args) wc in
  forall cmd,
    In cmd (invocations (trace_of (main os args w))) ->
    cmd = ffmpeg_version_cmd \/ cmd = ffprobe_version_cmd
    \/ file_event (os_walk os root wc) (EvRun cmd).
Proof.
  intros wc root cmd Hin. apply in_invocations in Hin.
  pose proof (check_ffmpeg_run os w) as Hc. cbv zeta in Hc.
  assert (Hhead : In (EvRun cmd) (trace_of (check_ffmpeg os w)) ->
                  cmd = ffmpeg_version_cmd \/ cmd = ffprobe_version_cmd).
  { rewrite Hc.
    repeat match goal with |- context [if ?b then _ else _] => destruct b end;
      unfold trace_of; cbn [snd]; simpl; intros H;
      repeat (destruct H as [H | H]; [inversion H; tauto|]); contradiction. }
  destruct (result_of (check_ffmpeg os w)) as [[]| |] eqn:Hr.
  - pose proof (main_after_check os args w Hr) as Hmain. cbv zeta in Hmain.
    fold wc in Hmain. fold root in Hmain. rewrite Hmain in Hin.
    destruct (is_dir os root wc); rewrite trace_of_triple in Hin;
      apply in_app_or in Hin; destruct Hin as [Hin | Hin];
      try (destruct (Hhead Hin); tauto).
    + destruct Hin as [Hin | Hin]; [discriminate|].
      right. right.
      pose proof (walk_loop_events os args (os_walk os root wc) wc) as Hloop.
      rewrite Forall_forall in Hloop. exact (Hloop _ Hin).
    + destruct Hin as [Hin | []]. discriminate.
  - rewrite main_check_failed in Hin by (rewrite Hr; discriminate).
    destruct (Hhead Hin); tauto.
  - rewrite main_check_failed in Hin by (rewrite Hr; discriminate).
    destruct (Hhead Hin); tauto.
Qed.

(** C10, as amended.  A file whose lower-cased extension is [.webm] matches
    no table: it is unrecognised and ignored without a trace, with or
    without the force flag.  In a whole run every child process other than
    the two version queries belongs to the task of a file of the tree that
    a table recognises, so no [.webm] file is ever probed or transcoded as
    a source; the destination of such a task is its source with the suffix
    replaced, so a [.webm] file can only be written as the output of a
    recognised source of the same directory and stem. *)
Theorem webm_is_never_a_source :
  forall (W : Type) (os : OS W) (args : Args) (w : W),
    let wc := world_of (check_ffmpeg os w) in
    let root := resolve os (input_dir args) wc in
    (forall dirpath filename v,
       PyStr.lower (suffix (mkPath dirpath filename)) = ".webm" ->
       classify (mkPath dirpath filename) = None
       /\ process_file os args dirpath filename v = (Ret tt, v, []))
    /\ (forall cmd,
          In cmd (invocations (trace_of (main os args w))) ->
          cmd = ffmpeg_version_cmd \/ cmd = ffprobe_version_cmd
          \/ exists dirpath filenames filename ft oe out,
               In (dirpath, filenames) (os_walk os root wc)
               /\ In filename filenames
               /\ classify (mkPath dirpath filename) = Some (ft, oe)
               /\ PyStr.lower (suffix (mkPath dirpath filename)) <> ".webm"
               /\ with_suffix (mkPath dirpath filename) oe = Some out
               /\ parent out = dirpath
               /\ stem out = stem (mkPath dirpath filename)
               /\ task_command (mkPath dirpath filename) out cmd).
Proof.
  intros W os args w wc root. split.
  - intros dirpath filename v Hext.
    pose proof (classify_webm _ Hext) as Hc. split; [exact Hc|].
    apply process_file_ignored, Hc.
  - intros cmd Hin.
    destruct (main_invocations os args w cmd Hin) as [H | [H | H]];
      [tauto | tauto | right; right].
    destruct H as (d & fs & f & ft & oe & out & Hd & Hf & Hc & Hw & He).
    exists d, fs, f, ft, oe, out.
    destruct (process_file_task os args d f ft oe Hc)
      as (out' & Hw' & _ & Hp & Hst & _).
    assert (out' = out) by congruence. subst out'.
    repeat split; try assumption.
    intros Hext. rewrite (classify_webm _ Hext) in Hc. discriminate.
Qed.

Lemma webm_is_never_a_source_witness :
  process_file (scenario_os second_pass) (mkArgs "/films" true "128k")
    "/films" "clip.webm" [path_str clip_out]
  = (Ret tt, [path_str clip_out], []).
Proof.
  destruct (webm_is_never_a_source _ (scenario_os second_pass)
              (mkArgs "/films" true "128k") []) as [H _].
  exact (proj2 (H "/films" "clip.webm" [path_str clip_out] eq_refl)).
Defined.

(** C10 as stated fails: on a second pass with the force flag set over a
    tree that holds clip.mp4 next to the clip.webm made from it, the
    transcoder is started on clip.mp4 with [-y /films/clip.webm]: the
    existing WebM output is overwritten. *)
Lemma forced_second_pass_counterexample :
  let args := mkArgs "/films" true "128k" in
  let w := [path_str clip_out; path_str clip] in
  path_exists (scenario_os second_pass) clip_out w = true
  /\ sc_tree second_pass = [("/films", ["clip.mp4"; "clip.webm"])]
  /\ transcoder_runs (snd (run_main second_pass args w))
     = [["ffmpeg"; "-i"; "/films/clip.mp4";
         "-c:v"; "libvpx-vp9"; "-lossless"; "1"; "-b:v"; "0";
         "-pix_fmt"; "yuva420p"; "-c:a"; "libopus"; "-b:a"; "128k";
         "-y"; "/films/clip.webm"]].
Proof. repeat split. Qed.

(* ================================================================== *)
(** * Further properties of the script *)
(* ================================================================== *)

(* ------------------------------------------------------------------ *)
(** ** The child processes of one task *)
(* ------------------------------------------------------------------ *)

Lemma invocations_of_report inp o :
  invocations (conversion_report inp o) = [].
Proof. destruct o as [rc so err| | |urc]; [destruct rc|..]; reflexivity. Qed.

Lemma conversion_report_done inp so err :
  conversion_report inp (Exited 0 so err) = [].
Proof. reflexivity. Qed.



(** The child processes of a task, by class: nothing when the task is
    skipped; otherwise, the destination having been looked up without an
    error, the transcoder alone for an image, and for a video
    or an audio file the stream probe first, the bit-rate probe only after
    a stream probe that reported audio, and the transcoder last.  An audio
    file without audio stream gets the stream probe only. *)
Theorem task_child_processes :
  forall (W : Type) (os : OS W) (inp out : Path) (ft : file_type)
         (force : bool) (dflt : string) (w : W),
    let procs := invocations (trace_of (convert_file os inp out ft force dflt w)) in
    let skipped := path_exists os out w && negb force in
    let audio := result_of (has_audio_stream os inp w) in
    (skipped = true -> procs = [])
    /\ (skipped = false ->
        exists_returns os out w = true ->
        match ft with
        | Image => procs = [image_cmd inp out]
        | Video =>
            (audio = Ret true /\
             exists br, procs = [has_audio_cmd inp; bitrate_cmd inp;
                                 video_audio_cmd inp out br])
            \/ (audio = Ret false /\
                procs = [has_audio_cmd inp; video_silent_cmd inp out])
        | Audio =>
            (audio = Ret true /\
             exists br, procs = [has_audio_cmd inp; bitrate_cmd inp;
                                 audio_cmd inp out br])
            \/ (audio = Ret false /\ procs = [has_audio_cmd inp])
        end).
Proof.
  intros W os inp out ft force dflt w procs skipped audio.
  subst procs skipped audio. split.
  - intros Hskip. rewrite convert_file_skip by exact Hskip. reflexivity.
  - intros Hgo Hst. destruct ft.
    + rewrite (convert_file_image os inp out force dflt w Hgo Hst).
      unfold trace_of. cbn [snd invocations].
      rewrite invocations_of_report. reflexivity.
    + destruct (has_audio_stream_bool os inp w) as [Ha | Ha]; [left | right];
        (split; [exact Ha|]).
      * rewrite (convert_file_video_audio os inp out force dflt w Hgo Hst Ha).
        unfold trace_of. cbn [snd app invocations].
        rewrite invocations_of_report. eexists. reflexivity.
      * rewrite (convert_file_video_silent os inp out force dflt w Hgo Hst Ha).
        unfold trace_of. cbn [snd app invocations].
        rewrite invocations_of_report. reflexivity.
    + destruct (has_audio_stream_bool os inp w) as [Ha | Ha]; [left | right];
        (split; [exact Ha|]).
      * rewrite (convert_file_audio_present os inp out force dflt w Hgo Hst Ha).
        unfold trace_of. cbn [snd app invocations].
        rewrite invocations_of_report. eexists. reflexivity.
      * rewrite (convert_file_audio_missing os inp out force dflt w Hgo Hst Ha).
        reflexivity.
Qed.

Lemma task_child_processes_witness :
  invocations
    (trace_of (convert_file (scenario_os no_streams) clip clip_out Video
                 false "128k" []))
  = [has_audio_cmd clip; video_silent_cmd clip clip_out].
Proof.
  destruct (task_child_processes _ (scenario_os no_streams) clip clip_out
              Video false "128k" []) as [_ H].
  destruct (H eq_refl eq_refl) as [[Ha _] | [_ Hp]].
  - discriminate Ha.
  - exact Hp.
Defined.

(* ------------------------------------------------------------------ *)
(** ** What the probes hand to the dispatcher *)
(* ------------------------------------------------------------------ *)

(** Whatever the probing tool prints, a bit rate that [get_audio_bitrate]
    returns is a number between 8 and 510 followed by "k". *)
Theorem probed_bitrate_in_codec_range :
  forall (W : Type) (os : OS W) (p : Path) (w : W) (s : string),
    result_of (get_audio_bitrate os p w) = Ret (Some s) ->
    exists k : N, (8 <= k <= 510)%N /\ s = PyStr.of_N k ++ "k".
Proof.
  intros W os p w s. rewrite get_audio_bitrate_run.
  unfold result_of. cbn [fst]. intros [= H].
  destruct (fst (spawn os (bitrate_cmd p) w)) as [rc out err| | |urc];
    [destruct rc|..]; try discriminate H.
  cbn [probe_audio_bitrate_spec] in H.
  destruct (decimal_digits (PyStr.strip out)
            && (String.length (PyStr.strip out)
                <=? PyStr.int_max_str_digits)%nat); [|discriminate H].
  destruct (PyStr.digits_value 0 (PyStr.strip out) =? 0)%N; [discriminate H|].
  injection H as <-. unfold kbps_label.
  eexists. split; [|reflexivity]. lia.
Qed.

Lemma probed_bitrate_in_codec_range_witness :
  exists k : N, (8 <= k <= 510)%N /\ "128k" = PyStr.of_N k ++ "k".
Proof.
  exact (probed_bitrate_in_codec_range _ (scenario_os (healthy [])) song []
           "128k" eq_refl).
Defined.

(** A stream probe that fails in any way (the tool exits non-zero, is
    missing, cannot be run, or prints what cannot be decoded) makes a video
    that is not skipped, its destination having been looked up without an
    error, lose its audio: the task
    prints the notice that the video will have no sound, never starts the
    bit-rate probe, and starts the transcoder with [-an]. *)
Theorem failed_stream_probe_drops_audio :
  forall (W : Type) (os : OS W) (inp out : Path) (force : bool)
         (dflt : string) (w : W),
    path_exists os out w && negb force = false ->
    exists_returns os out w = true ->
    usable (fst (spawn os (has_audio_cmd inp) w)) = false ->
    let run := convert_file os inp out Video force dflt w in
    invocations (trace_of run)
    = [has_audio_cmd inp;
       ["ffmpeg"; "-i"; path_str inp;
        "-c:v"; "libvpx-vp9"; "-lossless"; "1"; "-b:v"; "0";
        "-pix_fmt"; "yuva420p"; "-an"; "-y"; path_str out]]
    /\ exists report,
         trace_of run
         = EvRun (has_audio_cmd inp) :: EvPrint MsgVideoWithoutAudio
           :: EvPrint (MsgConverting inp out)
           :: EvRun (video_silent_cmd inp out) :: report.
Proof.
  intros W os inp out force dflt w Hgo Hst Hprobe run.
  assert (Ha : result_of (has_audio_stream os inp w) = Ret false).
  { rewrite has_audio_stream_run. unfold result_of. cbn [fst].
    destruct (fst (spawn os (has_audio_cmd inp) w)) as [rc so err| | |urc];
      [destruct rc|..]; try reflexivity. discriminate Hprobe. }
  unfold run.
  rewrite (convert_file_video_silent os inp out force dflt w Hgo Hst Ha).
  unfold trace_of. cbn [snd app invocations].
  rewrite invocations_of_report. split; [reflexivity|].
  eexists. reflexivity.
Qed.

Lemma failed_stream_probe_drops_audio_witness :
  invocations
    (trace_of (convert_file (scenario_os probe_fails) clip clip_out Video
                 false "128k" []))
  = [has_audio_cmd clip; video_silent_cmd clip clip_out].
Proof.
  exact (proj1 (failed_stream_probe_drops_audio _ (scenario_os probe_fails)
                  clip clip_out false "128k" [] eq_refl eq_refl eq_refl)).
Defined.

(* ------------------------------------------------------------------ *)
(** ** File names *)
(* ------------------------------------------------------------------ *)

Lemma rfind_absent c s : PyStr.contains c s = false -> PyStr.rfind c s = None.
Proof.
  induction s as [|a r IH]; simpl; [reflexivity|].
  intros H. apply orb_false_iff in H. destruct H as [Ha Hr].
  rewrite (IH Hr), Ha. reflexivity.
Qed.

Lemma suffix_of_no_dot f : PyStr.contains "." f = false -> suffix_of f = "".
Proof. intros H. unfold suffix_of. rewrite (rfind_absent _ _ H). reflexivity. Qed.

Lemma suffix_of_leading_dot g :
  PyStr.contains "." g = false -> suffix_of ("." ++ g) = "".
Proof.
  intros H. unfold suffix_of. simpl. rewrite (rfind_absent _ _ H). reflexivity.
Qed.

Lemma suffix_of_trailing_dot g : suffix_of (g ++ ".") = "".
Proof.
  unfold suffix_of. rewrite rfind_app. simpl PyStr.rfind. cbv iota.
  rewrite app_length, Nat.add_0_r. simpl String.length.
  replace (String.length g <? String.length g + 1 - 1)%nat with false
    by (symmetry; apply Nat.ltb_ge; lia).
  rewrite andb_false_r. reflexivity.
Qed.

Lemma classify_no_suffix p : suffix p = "" -> classify p = None.
Proof. intros H. unfold classify. rewrite H. reflexivity. Qed.

(** A name without a dot, a name whose only dot is its first character
    (a hidden file such as ".mp4"), and a name that ends with a dot have
    no extension for the script: the file is passed over, nothing is
    printed and no process is started. *)
Theorem names_without_extension_are_ignored :
  forall (W : Type) (os : OS W) (args : Args) (dirpath filename : string)
         (w : W),
    (PyStr.contains "." filename = false
     \/ (exists g, filename = "." ++ g /\ PyStr.contains "." g = false)
     \/ (exists g, filename = g ++ ".")) ->
    classify (mkPath dirpath filename) = None
    /\ process_file os args dirpath filename w = (Ret tt, w, []).
Proof.
  intros W os args dirpath filename w H.
  assert (Hs : suffix (mkPath dirpath filename) = "").
  { unfold suffix. simpl.
    destruct H as [H | [(g & -> & H) | (g & ->)]].
    - apply suffix_of_no_dot, H.
    - apply suffix_of_leading_dot, H.
    - apply suffix_of_trailing_dot. }
  pose proof (classify_no_suffix _ Hs) as Hc.
  split; [exact Hc | apply process_file_ignored, Hc].
Qed.

Lemma names_without_extension_are_ignored_witness :
  process_file (scenario_os (healthy [])) (mkArgs "/in" true "128k")
    "/in" ".mp4" []
  = (Ret tt, [], []).
Proof.
  refine (proj2 (names_without_extension_are_ignored _ (scenario_os (healthy []))
                   (mkArgs "/in" true "128k") "/in" ".mp4" [] _)).
  right. left. exists "mp4". split; reflexivity.
Defined.

Lemma lower_length s : String.length (PyStr.lower s) = String.length s.
Proof. induction s as [|c r IH]; simpl; [reflexivity | now rewrite IH]. Qed.

(** The path of a file named [st ++ x], where [st] is not empty and [x]
    is a dot followed by a part without dot: its suffix is [x], its stem
    is [st], and replacing the suffix keeps [st]. *)
Lemma named_file_paths d st x oe :
  st <> "" ->
  PyStr.rfind "." x = Some 0 ->
  2 <= String.length x ->
  oe = ".webp" \/ oe = ".webm" ->
  suffix (mkPath d (st ++ x)) = x
  /\ with_suffix (mkPath d (st ++ x)) oe = Some (mkPath d (st ++ oe)).
Proof.
  intros Hst Hdot Hlen Hoe.
  destruct (suffix_of_app st x Hst Hdot Hlen) as [Hsuf Hsub].
  assert (Hs : suffix (mkPath d (st ++ x)) = x) by exact Hsuf.
  split; [exact Hs|].
  assert (Hne : suffix (mkPath d (st ++ x)) <> "").
  { rewrite Hs. intros ->. simpl in Hlen. lia. }
  destruct (with_suffix_replaces _ oe Hne Hoe) as (out & Hw & Hp & _ & _ & Hn).
  rewrite Hw. f_equal. destruct out as [d' n']. simpl in *. subst d'.
  f_equal. rewrite Hn. unfold stem. rewrite Hs. simpl. rewrite Hsub.
  reflexivity.
Qed.

(** The same for a listed extension, in any letter case. *)
Lemma listed_extension_shape x e :
  In e (image_names ++ video_names ++ audio_names) ->
  PyStr.lower x = "." ++ e -> 2 <= String.length x.
Proof.
  intros He Hx. rewrite <- (lower_length x), Hx.
  rewrite !in_app_iff in He. simpl in He.
  repeat (destruct He as [He | He]);
    try contradiction; subst e; simpl; lia.
Qed.

Section NamedFiles.

Context {W : Type} (os : OS W).

(** A file named stem-dot-extension with a listed extension, in any letter
    case, becomes the task on the same stem with the output extension of
    its class. *)
Lemma named_file_task args d st x e ft oe w :
  st <> "" ->
  PyStr.rfind "." x = Some 0 ->
  PyStr.lower x = "." ++ e ->
  (ft = Image /\ oe = ".webp" /\ In e image_names)
  \/ (ft = Video /\ oe = ".webm" /\ In e video_names)
  \/ (ft = Audio /\ oe = ".webm" /\ In e audio_names) ->
  process_file os args d (st ++ x) w
  = convert_file os (mkPath d (st ++ x)) (mkPath d (st ++ oe)) ft
      (force args) (default_bitrate args) w.
Proof.
  intros Hst Hdot Hx Hclass.
  assert (He : In e (image_names ++ video_names ++ audio_names))
    by (rewrite !in_app_iff; tauto).
  assert (Hoe : oe = ".webp" \/ oe = ".webm") by tauto.
  destruct (named_file_paths d st x oe Hst Hdot
              (listed_extension_shape x e He Hx) Hoe) as [Hs Hw].
  assert (Hc : classify (mkPath d (st ++ x)) = Some (ft, oe)).
  { destruct Hclass as [(-> & -> & Hi) | [(-> & -> & Hi) | (-> & -> & Hi)]].
    - apply (classify_image _ e Hi). rewrite Hs. exact Hx.
    - apply (classify_video _ e Hi). rewrite Hs. exact Hx.
    - apply (classify_audio _ e Hi). rewrite Hs. exact Hx. }
  destruct (process_file_task os args d (st ++ x) ft oe Hc)
    as (out & Hw' & Hrun & _).
  assert (out = mkPath d (st ++ oe)) by congruence. subst out.
  apply Hrun.
Qed.

End NamedFiles.

(** Only the last extension of a name counts.  For a non-empty stem, which
    may itself hold dots, and a listed extension written in any letter
    case, the file stem.ext is converted into stem.webp (image) or
    stem.webm (video, audio) in the same directory. *)
Theorem last_extension_decides :
  forall (W : Type) (os : OS W) (args : Args) (d st x e : string) (w : W),
    st <> "" ->
    PyStr.rfind "." x = Some 0 ->
    PyStr.lower x = "." ++ e ->
    let task ft oe :=
      process_file os args d (st ++ x) w
      = convert_file os (mkPath d (st ++ x)) (mkPath d (st ++ oe)) ft
          (force args) (default_bitrate args) w in
    (In e image_names -> task Image ".webp")
    /\ (In e video_names -> task Video ".webm")
    /\ (In e audio_names -> task Audio ".webm").
Proof.
  intros W os args d st x e w Hst Hdot Hx task. subst task. cbv beta.
  repeat split; intros He;
    apply (named_file_task os args d st x e); auto 10.
Qed.

Lemma last_extension_decides_witness :
  process_file (scenario_os (healthy [])) (mkArgs "/in" false "128k")
    "/in" "talk.v2.tar.FLAC" ["/in/talk.v2.tar.webm"]
  = (Ret tt, ["/in/talk.v2.tar.webm"],
     [EvPrint (MsgSkipExists (mkPath "/in" "talk.v2.tar.webm"))]).
Proof.
  refine (eq_trans
            (proj2 (proj2 (last_extension_decides _ (scenario_os (healthy []))
                             (mkArgs "/in" false "128k") "/in" "talk.v2.tar"
                             ".FLAC" "flac" ["/in/talk.v2.tar.webm"]
                             _ eq_refl eq_refl)) _)
            eq_refl).
  - discriminate.
  - simpl. tauto.
Defined.

(** Destinations are not distinct.  Two files of one directory with the
    same stem and listed extensions of the same output kind (two picture
    formats, or any two of the video and audio formats) are tasks on the
    same destination; whichever comes second finds the destination of the
    first: without the force flag it is skipped when that file exists. *)
Theorem same_stem_sources_share_destination :
  forall (W : Type) (os : OS W) (args : Args) (d st e1 e2 : string) (w : W),
    st <> "" ->
    let shared oe :=
      exists ft1 ft2,
        process_file os args d (st ++ "." ++ e1) w
        = convert_file os (mkPath d (st ++ "." ++ e1)) (mkPath d (st ++ oe))
            ft1 (force args) (default_bitrate args) w
        /\ process_file os args d (st ++ "." ++ e2) w
           = convert_file os (mkPath d (st ++ "." ++ e2))
               (mkPath d (st ++ oe)) ft2 (force args) (default_bitrate args) w
        /\ (path_exists os (mkPath d (st ++ oe)) w = true ->
            force args = false ->
            process_file os args d (st ++ "." ++ e2) w
            = (Ret tt, w, [EvPrint (MsgSkipExists (mkPath d (st ++ oe)))])) in
    (In e1 image_names -> In e2 image_names -> shared ".webp")
    /\ (In e1 (video_names ++ audio_names) ->
        In e2 (video_names ++ audio_names) -> shared ".webm").
Proof.
  intros W os args d st e1 e2 w Hst shared. subst shared. cbv beta.
  assert (Hdot : forall e,
             In e (image_names ++ video_names ++ audio_names) ->
             PyStr.rfind "." ("." ++ e) = Some 0
             /\ PyStr.lower ("." ++ e) = "." ++ e).
  { intros e He. rewrite !in_app_iff in He. simpl in He.
    repeat (destruct He as [He | He]);
      try contradiction; subst e; split; reflexivity. }
  assert (Htask : forall e ft oe,
             (ft = Image /\ oe = ".webp" /\ In e image_names)
             \/ (ft = Video /\ oe = ".webm" /\ In e video_names)
             \/ (ft = Audio /\ oe = ".webm" /\ In e audio_names) ->
             process_file os args d (st ++ "." ++ e) w
             = convert_file os (mkPath d (st ++ "." ++ e))
                 (mkPath d (st ++ oe)) ft (force args) (default_bitrate args) w).
  { intros e ft oe Hclass.
    assert (He : In e (image_names ++ video_names ++ audio_names))
      by (rewrite !in_app_iff; tauto).
    destruct (Hdot e He) as [H1 H2].
    exact (named_file_task os args d st ("." ++ e) e ft oe w Hst H1 H2 Hclass). }
  assert (Hskip : forall e ft oe,
             process_file os args d (st ++ "." ++ e) w
             = convert_file os (mkPath d (st ++ "." ++ e))
                 (mkPath d (st ++ oe)) ft (force args) (default_bitrate args) w ->
             path_exists os (mkPath d (st ++ oe)) w = true ->
             force args = false ->
             process_file os args d (st ++ "." ++ e) w
             = (Ret tt, w, [EvPrint (MsgSkipExists (mkPath d (st ++ oe)))])).
  { intros e ft oe Hrun Hex Hf. rewrite Hrun. apply convert_file_skip.
    rewrite Hex, Hf. reflexivity. }
  split.
  - intros H1 H2. exists Image, Image.
    assert (T1 := Htask e1 Image ".webp" (or_introl (conj eq_refl (conj eq_refl H1)))).
    assert (T2 := Htask e2 Image ".webp" (or_introl (conj eq_refl (conj eq_refl H2)))).
    split; [exact T1|]. split; [exact T2|]. exact (Hskip _ _ _ T2).
  - intros H1 H2. apply in_app_or in H1. apply in_app_or in H2.
    destruct H1 as [H1 | H1], H2 as [H2 | H2].
    + exists Video, Video.
      assert (T1 := Htask e1 Video ".webm" (or_intror (or_introl (conj eq_refl (conj eq_refl H1))))).
      assert (T2 := Htask e2 Video ".webm" (or_intror (or_introl (conj eq_refl (conj eq_refl H2))))).
      split; [exact T1|]. split; [exact T2|]. exact (Hskip _ _ _ T2).
    + exists Video, Audio.
      assert (T1 := Htask e1 Video ".webm" (or_intror (or_introl (conj eq_refl (conj eq_refl H1))))).
      assert (T2 := Htask e2 Audio ".webm" (or_intror (or_intror (conj eq_refl (conj eq_refl H2))))).
      split; [exact T1|]. split; [exact T2|]. exact (Hskip _ _ _ T2).
    + exists Audio, Video.
      assert (T1 := Htask e1 Audio ".webm" (or_intror (or_intror (conj eq_refl (conj eq_refl H1))))).
      assert (T2 := Htask e2 Video ".webm" (or_intror (or_introl (conj eq_refl (conj eq_refl H2))))).
      split; [exact T1|]. split; [exact T2|]. exact (Hskip _ _ _ T2).
    + exists Audio, Audio.
      assert (T1 := Htask e1 Audio ".webm" (or_intror (or_intror (conj eq_refl (conj eq_refl H1))))).
      assert (T2 := Htask e2 Audio ".webm" (or_intror (or_intror (conj eq_refl (conj eq_refl H2))))).
      split; [exact T1|]. split; [exact T2|]. exact (Hskip _ _ _ T2).
Qed.

Lemma same_stem_sources_share_destination_witness :
  process_file (scenario_os (healthy [])) (mkArgs "/films" false "128k")
    "/films" "clip.mp3" [path_str clip_out]
  = (Ret tt, [path_str clip_out], [EvPrint (MsgSkipExists clip_out)]).
Proof.
  destruct (same_stem_sources_share_destination _ (scenario_os (healthy []))
              (mkArgs "/films" false "128k") "/films" "clip" "mp4" "mp3"
              [path_str clip_out]) as [_ H].
  - discriminate.
  - destruct H as (ft1 & ft2 & _ & _ & Hskip).
    + simpl. tauto.
    + simpl. tauto.
    + exact (Hskip eq_refl eq_refl).
Defined.

(** What a destination is for the next pass.  The output of a video or an
    audio task differs from its source and is a file that no table
    recognises; the output of an image task is itself an image source,
    whose destination is that same file. *)
Theorem destinations_as_sources :
  forall (p out : Path) (ft : file_type) (oe : string),
    classify p = Some (ft, oe) ->
    with_suffix p oe = Some out ->
    (ft <> Image -> out <> p /\ classify out = None)
    /\ (ft = Image ->
        classify out = Some (Image, ".webp")
        /\ with_suffix out ".webp" = Some out).
Proof.
  intros p out ft oe Hc Hw.
  destruct (classify_inv _ _ _ Hc) as (e & _ & Hcase).
  assert (Hoe : oe = ".webp" \/ oe = ".webm") by tauto.
  destruct (with_suffix_replaces p oe (classify_has_suffix _ _ _ Hc) Hoe)
    as (out' & Hw' & _ & _ & Hsuf & _).
  assert (out' = out) by congruence. subst out'.
  split.
  - intros Hft.
    assert (Hm : oe = ".webm") by (destruct Hcase as [H | [H | H]]; tauto).
    assert (Hout : classify out = None)
      by (apply classify_webm; rewrite Hsuf, Hm; reflexivity).
    split; [|exact Hout]. intros ->. congruence.
  - intros Hft.
    assert (Hp : oe = ".webp").
    { destruct Hcase as [H | [H | H]]; [tauto | |];
        destruct H as (H & _); congruence. }
    rewrite Hp in Hsuf. split.
    + apply (classify_image out "webp"); [simpl; tauto|].
      rewrite Hsuf. reflexivity.
    + apply with_suffix_same; [exact Hsuf | tauto].
Qed.

Lemma destinations_as_sources_witness :
  clip_out <> clip /\ classify clip_out = None.
Proof.
  exact (proj1 (destinations_as_sources clip clip_out Video ".webm"
                  eq_refl eq_refl) ltac:(discriminate)).
Defined.

(* ------------------------------------------------------------------ *)
(** ** How a whole run ends *)
(* ------------------------------------------------------------------ *)

Lemma check_ffmpeg_passed {W} (os : OS W) w :
  result_of (check_ffmpeg os w) = Ret tt ->
  trace_of (check_ffmpeg os w)
  = [EvRun ffmpeg_version_cmd; EvRun ffprobe_version_cmd].
Proof.
  pose proof (check_ffmpeg_run os w) as Hc. cbv zeta in Hc. rewrite Hc.
  repeat match goal with |- context [if ?b then _ else _] => destruct b end;
    unfold result_of, trace_of; cbn [fst snd]; intros H;
    try discriminate H; reflexivity.
Qed.

(** After a dependency check that passed, a root that is not a directory
    ends the run at once: the diagnostic is printed, the exit status is 1,
    the tree is not walked and no file is touched. *)
Theorem root_must_be_a_directory :
  forall (W : Type) (os : OS W) (args : Args) (w : W),
    result_of (check_ffmpeg os w) = Ret tt ->
    let wc := world_of (check_ffmpeg os w) in
    let root := resolve os (input_dir args) wc in
    is_dir os root wc = false ->
    main os args w
    = (SysExit 1, wc,
       [EvRun ffmpeg_version_cmd; EvRun ffprobe_version_cmd;
        EvPrint (MsgNotADirectory root)])
    /\ exit_status (result_of (main os args w)) = 1%Z.
Proof.
  intros W os args w Hok wc root Hdir.
  pose proof (main_after_check os args w Hok) as Hmain. cbv zeta in Hmain.
  fold wc in Hmain. fold root in Hmain.
  rewrite Hdir, (check_ffmpeg_passed os w Hok) in Hmain.
  rewrite Hmain. split; reflexivity.
Qed.

Lemma root_must_be_a_directory_witness :
  run_main not_a_directory (mkArgs "/etc/passwd" false "128k") []
  = (1%Z,
     [EvRun ffmpeg_version_cmd; EvRun ffprobe_version_cmd;
      EvPrint (MsgNotADirectory "/etc/passwd")]).
Proof.
  unfold run_main.
  rewrite (proj1 (root_must_be_a_directory _ (scenario_os not_a_directory)
                    (mkArgs "/etc/passwd" false "128k") [] eq_refl eq_refl)).
  reflexivity.
Defined.

Lemma conversion_report_raised inp o e :
  conversion_result o = Raise e -> conversion_report inp o = [].
Proof. destruct o; simpl; [discriminate | reflexivity..]. Qed.

(** Not every per-file error is caught.  When the transcoder of a file
    cannot be started (the executable is gone, or another error of the
    operating system), or what it wrote cannot be decoded, the exception of
    [subprocess.run] is not handled: the start of the transcoder is the
    last event, nothing is printed after it, the exception leaves the loop
    over the directory, and the files that follow are not processed.  The
    same holds for the error of looking up the destination, which is
    raised before anything is printed or started.  In general, an
    exception that the processing of a file raises ends the loop at that
    file. *)
Theorem launch_failure_leaves_the_loop :
  forall (W : Type) (os : OS W) (args : Args) (d f : string)
         (rest : list string) (w : W),
    let p := mkPath d f in
    let loop := for_each (process_file os args d) (f :: rest) w in
    (forall ft oe out cmd v e,
       classify p = Some (ft, oe) ->
       with_suffix p oe = Some out ->
       path_exists os out w && negb (force args) = false ->
       exists_returns os out w = true ->
       transcoder_start os p out ft (default_bitrate args) w = Some (cmd, v) ->
       conversion_result (fst (spawn os cmd v)) = Raise e ->
       exists pre,
         loop = (Raise e, snd (spawn os cmd v), (pre ++ [EvRun cmd])%list)
         /\ transcoder_runs pre = [])
    /\ (forall ft oe out,
          classify p = Some (ft, oe) ->
          with_suffix p oe = Some out ->
          exists_returns os out w = false ->
          loop = (Raise StatError, w, []))
    /\ (forall e,
          result_of (process_file os args d f w) = Raise e ->
          loop = process_file os args d f w).
Proof.
  intros W os args d f rest w p loop.
  assert (Hleave : forall e,
             result_of (process_file os args d f w) = Raise e ->
             loop = process_file os args d f w).
  { intros e Hraise. unfold loop. simpl. unfold bind.
    unfold result_of in Hraise.
    destruct (process_file os args d f w) as [[r v] t]. simpl in Hraise.
    subst r. reflexivity. }
  split; [|split; [|exact Hleave]].
  - intros ft oe out cmd v e Hc Hw Hgo Hst Hstart He.
    destruct (process_file_task os args d f ft oe Hc)
      as (out' & Hw' & Hrun & _).
    fold p in Hw', Hrun. rewrite Hw in Hw'. injection Hw' as <-.
    destruct (convert_file_started os p out ft (force args)
                (default_bitrate args) w cmd v Hgo Hst Hstart)
      as (_ & pre & Hcf & Hpre & _).
    rewrite He, (conversion_report_raised p _ e He) in Hcf.
    exists pre. split; [|exact Hpre].
    rewrite (Hleave e) by (rewrite Hrun, Hcf; reflexivity).
    rewrite Hrun. exact Hcf.
  - intros ft oe out Hc Hw Hst.
    destruct (process_file_task os args d f ft oe Hc)
      as (out' & Hw' & Hrun & _).
    fold p in Hw', Hrun. rewrite Hw in Hw'. injection Hw' as <-.
    pose proof (convert_file_stat_error os p out ft (force args)
                  (default_bitrate args) w Hst) as Hcf.
    rewrite (Hleave StatError) by (rewrite Hrun, Hcf; reflexivity).
    rewrite Hrun. exact Hcf.
Qed.

Lemma launch_failure_leaves_the_loop_witness :
  exists pre,
    for_each (process_file (scenario_os vanished) (mkArgs "/in" false "128k")
                "/in")
      ["a.png"; "b.png"] []
    = (Raise FileNotFoundError, [],
       (pre ++ [EvRun (image_cmd (mkPath "/in" "a.png")
                         (mkPath "/in" "a.webp"))])%list).
Proof.
  destruct (proj1 (launch_failure_leaves_the_loop _ (scenario_os vanished)
                     (mkArgs "/in" false "128k") "/in" "a.png" ["b.png"] [])
              Image ".webp" (mkPath "/in" "a.webp")
              (image_cmd (mkPath "/in" "a.png") (mkPath "/in" "a.webp")) []
              FileNotFoundError
              eq_refl eq_refl eq_refl eq_refl eq_refl eq_refl)
    as (pre & H & _).
  exists pre. exact H.
Defined.

(** The runs of two scenarios in which a file's error ends the run: the
    transcoder has vanished, and the destination cannot be looked up. *)
Example vanished_run :
  run_main vanished (mkArgs "/in" false "128k") []
  = (1%Z,
     [EvRun ffmpeg_version_cmd; EvRun ffprobe_version_cmd; EvWalk "/in";
      EvPrint (MsgConverting (mkPath "/in" "a.png") (mkPath "/in" "a.webp"));
      EvRun (image_cmd (mkPath "/in" "a.png") (mkPath "/in" "a.webp"))]).
Proof. reflexivity. Qed.

Example denied_run :
  run_main denied (mkArgs "/music" false "128k") []
  = (1%Z,
     [EvRun ffmpeg_version_cmd; EvRun ffprobe_version_cmd; EvWalk "/music"]).
Proof. reflexivity. Qed.

Lemma invocations_app a b :
  invocations (a ++ b) = (invocations a ++ invocations b)%list.
Proof.
  induction a as [|e a IH]; simpl; [reflexivity|].
  destruct e; simpl; rewrite IH; reflexivity.
Qed.

(** A loop whose bodies all return at once in the state [w], starting no
    process, leaves [w] as it is and starts no process. *)
Lemma for_each_idle {W A} (body : A -> M W unit) xs w :
  (forall x, In x xs ->
     exists t, body x w = (Ret tt, w, t) /\ invocations t = []) ->
  exists t, for_each body xs w = (Ret tt, w, t) /\ invocations t = [].
Proof.
  induction xs as [|x rest IH]; intros Hb; simpl.
  - exists []. split; reflexivity.
  - destruct (Hb x (or_introl eq_refl)) as (t1 & H1 & I1).
    destruct (IH (fun y Hy => Hb y (or_intror Hy))) as (t2 & H2 & I2).
    exists (t1 ++ t2)%list. unfold bind. rewrite H1, H2.
    split; [reflexivity|]. rewrite invocations_app, I1, I2. reflexivity.
Qed.

(** A pass without the force flag over a tree in which the destination of
    every recognised file exists is idle: apart from the two version
    queries no process is started, neither a probe nor the transcoder, the
    system is left as the dependency check left it, and the run returns. *)
Theorem pass_over_converted_tree_is_idle :
  forall (W : Type) (os : OS W) (args : Args) (w : W),
    result_of (check_ffmpeg os w) = Ret tt ->
    let wc := world_of (check_ffmpeg os w) in
    let root := resolve os (input_dir args) wc in
    is_dir os root wc = true ->
    force args = false ->
    (forall d fs f ft oe out,
       In (d, fs) (os_walk os root wc) -> In f fs ->
       classify (mkPath d f) = Some (ft, oe) ->
       with_suffix (mkPath d f) oe = Some out ->
       path_exists os out wc = true) ->
    let run := main os args w in
    result_of run = Ret tt
    /\ world_of run = wc
    /\ invocations (trace_of run) = [ffmpeg_version_cmd; ffprobe_version_cmd].
Proof.
  intros W os args w Hok wc root Hdir Hforce Hdone run.
  pose proof (main_after_check os args w Hok) as Hmain. cbv zeta in Hmain.
  fold wc in Hmain. fold root in Hmain. fold run in Hmain.
  rewrite Hdir, (check_ffmpeg_passed os w Hok) in Hmain.
  assert (Hloop : exists t,
             for_each
               (fun entry =>
                  for_each (process_file os args (fst entry)) (snd entry))
               (os_walk os root wc) wc = (Ret tt, wc, t)
             /\ invocations t = []).
  { apply for_each_idle. intros [d fs] Hd. simpl.
    apply for_each_idle. intros f Hf.
    destruct (classify (mkPath d f)) as [[ft oe]|] eqn:Hc.
    - destruct (process_file_task os args d f ft oe Hc)
        as (out & Hw & Hrun & _).
      exists [EvPrint (MsgSkipExists out)]. split; [|reflexivity].
      rewrite Hrun. apply convert_file_skip.
      rewrite (Hdone d fs f ft oe out Hd Hf Hc Hw), Hforce. reflexivity.
    - exists []. split; [|reflexivity].
      apply process_file_ignored, Hc. }
  destruct Hloop as (t & Ht & Hi). rewrite Ht in Hmain. rewrite Hmain.
  unfold result_of, world_of, trace_of. cbn [fst snd app invocations].
  rewrite Hi. repeat split.
Qed.

Lemma converted_tree_is_done :
  forall d fs f ft oe out,
    In (d, fs) (sc_tree converted_tree) -> In f fs ->
    classify (mkPath d f) = Some (ft, oe) ->
    with_suffix (mkPath d f) oe = Some out ->
    PyStr.mem (path_str out) [path_str clip_out; path_str logo_lower] = true.
Proof.
  intros d fs f ft oe out Hd Hf Hc Hw. simpl in Hd.
  destruct Hd as [[= <- <-] | [[= <- <-] | []]];
    destruct Hf as [<- | []];
    vm_compute in Hc; injection Hc as <- <-;
    vm_compute in Hw; injection Hw as <-; reflexivity.
Qed.

Lemma pass_over_converted_tree_is_idle_witness :
  invocations
    (trace_of (main (scenario_os converted_tree) (mkArgs "/" false "128k")
                 [path_str clip_out; path_str logo_lower]))
  = [ffmpeg_version_cmd; ffprobe_version_cmd].
Proof.
  exact (proj2 (proj2 (pass_over_converted_tree_is_idle _
                         (scenario_os converted_tree)
                         (mkArgs "/" false "128k")
                         [path_str clip_out; path_str logo_lower]
                         eq_refl eq_refl eq_refl converted_tree_is_done))).
Defined.

(** No file is touched before both checks passed: a child process other
    than the two version queries occurs in a run only when the dependency
    check returned and the resolved root is a directory. *)
Theorem files_only_after_both_checks :
  forall (W : Type) (os : OS W) (args : Args) (w : W) (cmd : list string),
    In cmd (invocations (trace_of (main os args w))) ->
    cmd <> ffmpeg_version_cmd ->
    cmd <> ffprobe_version_cmd ->
    let wc := world_of (check_ffmpeg os w) in
    result_of (check_ffmpeg os w) = Ret tt
    /\ is_dir os (resolve os (input_dir args) wc) wc = true.
Proof.
  intros W os args w cmd Hin Hf Hp wc.
  assert (Hhead : forall t,
             t = trace_of (check_ffmpeg os w) ->
             In cmd (invocations t) -> False).
  { intros t -> H.
    pose proof (check_ffmpeg_run os w) as Hc. cbv zeta in Hc.
    rewrite Hc in H. revert H.
    repeat match goal with |- context [if ?b then _ else _] => destruct b end;
      unfold trace_of; cbn [snd invocations]; simpl; intros H;
      repeat (destruct H as [H | H]; [congruence|]); contradiction. }
  destruct (result_of (check_ffmpeg os w)) as [[]| |] eqn:Hr.
  - split; [reflexivity|].
    pose proof (main_after_check os args w Hr) as Hmain. cbv zeta in Hmain.
    fold wc in Hmain. rewrite Hmain in Hin.
    destruct (is_dir os _ wc); [reflexivity|].
    rewrite trace_of_triple, invocations_app in Hin.
    apply in_app_or in Hin. destruct Hin as [Hin | Hin].
    + exfalso. exact (Hhead _ eq_refl Hin).
    + simpl in Hin. contradiction.
  - exfalso. rewrite main_check_failed in Hin by (rewrite Hr; discriminate).
    exact (Hhead _ eq_refl Hin).
  - exfalso. rewrite main_check_failed in Hin by (rewrite Hr; discriminate).
    exact (Hhead _ eq_refl Hin).
Qed.

Lemma files_only_after_both_checks_witness :
  result_of (check_ffmpeg (scenario_os first_fails) []) = Ret tt
  /\ is_dir (scenario_os first_fails) "/in" [] = true.
Proof.
  refine (files_only_after_both_checks _ (scenario_os first_fails)
            (mkArgs "/in" false "128k") []
            (image_cmd (mkPath "/in" "b.png") (mkPath "/in" "b.webp"))
            _ _ _).
  - vm_compute. tauto.
  - discriminate.
  - discriminate.
Defined.
